(** * GPM-IMERG mirror: the synchronisation logic of [gpm.py] and [util.py]

    A shallow embedding of the download/update script.  The Python
    functions [check_mdt] (util.py) and [download_file], [process_file],
    [download_yr], [main] (gpm.py) are transcribed as functions in a small
    state-and-exception monad over a [World] made of the local filesystem,
    the host clock and a trace of the side effects performed.

    What lies outside the repository is taken as a parameter, gathered in
    the record [Env]: the remote server (parsed listing pages and file
    bodies), [dateutil.parser.parse], the host's local timezone and clock. *)

From Stdlib Require Import ZArith List Ascii String Bool Lia.
From stdpp Require Import base option list strings gmap.

Local Open Scope string_scope.
Local Open Scope Z_scope.

(** ** Python built-ins used by the script *)

(** [s[:n]] *)
Fixpoint py_take (n : nat) (s : string) : string :=
  match n, s with
  | S k, String c r => String c (py_take k r)
  | _, _ => EmptyString
  end.

(** [old] is a prefix of [s] *)
Fixpoint starts_with (old s : string) : bool :=
  match old, s with
  | EmptyString, _ => true
  | String a r, String b t => if Ascii.eqb a b then starts_with r t else false
  | String _ _, EmptyString => false
  end.

(** [s.replace(old, new)] for a non-empty [old]: every non-overlapping
    occurrence, leftmost first.  [skip] counts the characters of a matched
    occurrence that are still to be dropped. *)
Fixpoint replace_from (old new : string) (skip : nat) (s : string) : string :=
  match s with
  | EmptyString => EmptyString
  | String c r =>
      match skip with
      | S k => replace_from old new k r
      | O =>
          if starts_with old s
          then new +:+ replace_from old new (String.length old - 1) r
          else String c (replace_from old new O r)
      end
  end.

Definition py_replace (s old new : string) : string :=
  replace_from old new O s.

(** [s.split(sep)] for a one-character separator: always at least one piece. *)
Fixpoint py_split (sep : ascii) (s : string) : list string :=
  match s with
  | EmptyString => [EmptyString]
  | String c r =>
      if Ascii.eqb c sep then EmptyString :: py_split sep r
      else match py_split sep r with
           | h :: t => String c h :: t
           | [] => [String c EmptyString]
           end
  end.

Definition is_digit (c : ascii) : bool :=
  let n := nat_of_ascii c in (48 <=? n)%nat && (n <=? 57)%nat.

Definition digit_val (c : ascii) : Z := Z.of_nat (nat_of_ascii c) - 48.

Definition digit_char (d : Z) : ascii := ascii_of_nat (Z.to_nat (48 + d)).

(** Characters removed by [str.strip()] and ignored around a number by
    [int()]: the ASCII white space of Python. *)
Definition is_space (c : ascii) : bool :=
  let n := nat_of_ascii c in
  ((9 <=? n)%nat && (n <=? 13)%nat) || ((28 <=? n)%nat && (n <=? 32)%nat).

Fixpoint lstrip (s : string) : string :=
  match s with
  | String c r => if is_space c then lstrip r else s
  | EmptyString => EmptyString
  end.

Fixpoint rstrip (s : string) : string :=
  match s with
  | EmptyString => EmptyString
  | String c r =>
      match rstrip r with
      | EmptyString => if is_space c then EmptyString else String c EmptyString
      | r' => String c r'
      end
  end.

(** The digits of a decimal literal as [int()] reads them: one or more
    digits, single underscores allowed between two digits.  [prev] tells
    whether the previous character was a digit. *)
Fixpoint int_digits (prev : bool) (acc : Z) (s : string) : option Z :=
  match s with
  | EmptyString => if prev then Some acc else None
  | String c r =>
      if is_digit c then int_digits true (10 * acc + digit_val c) r
      else if Ascii.eqb c "_" then
             (if prev then
                match r with
                | String d _ => if is_digit d then int_digits false acc r else None
                | EmptyString => None
                end
              else None)
      else None
  end.

(** [int(s)] on an ASCII string; [None] stands for [ValueError]. *)
Definition py_int (s : string) : option Z :=
  match rstrip (lstrip s) with
  | String "-" r => option_map Z.opp (int_digits false 0 r)
  | String "+" r => int_digits false 0 r
  | t => int_digits false 0 t
  end.

(** Decimal digits of a non-negative integer, most significant first. *)
Fixpoint digits_of (fuel : nat) (n : Z) (acc : string) : string :=
  match fuel with
  | O => acc
  | S f =>
      let acc' := String (digit_char (n mod 10)) acc in
      if n <? 10 then acc' else digits_of f (n / 10) acc'
  end.

(** [str(n)] for an integer. *)
Definition py_str (n : Z) : string :=
  if n <? 0
  then String "-" (digits_of (S (Z.to_nat (Z.log2 (- n)))) (- n) EmptyString)
  else digits_of (S (Z.to_nat (Z.log2 n))) n EmptyString.

Fixpoint zeros (k : nat) : string :=
  match k with
  | O => EmptyString
  | S j => String "0" (zeros j)
  end.

(** [s.zfill(width)]: pads with zeros on the left, after a leading sign. *)
Definition py_zfill (width : nat) (s : string) : string :=
  if (width <=? String.length s)%nat then s
  else
    let fill := (width - String.length s)%nat in
    match s with
    | String c r =>
        if Ascii.eqb c "+" || Ascii.eqb c "-"
        then String c (zeros fill +:+ r)
        else zeros fill +:+ s
    | EmptyString => zeros fill
    end.

(** [range(a, b)] *)
Definition py_range (a b : Z) : list Z :=
  map (fun k => a + Z.of_nat k) (seq 0 (Z.to_nat (b - a))).

Definition str_in (s : string) (l : list string) : bool :=
  existsb (String.eqb s) l.

(** ** The world the script acts on *)

(** Exceptions that reach the top level: nothing in [gpm.py] catches them
    between [main] and the failing call. *)
Inductive exn : Type :=
  | ValueError          (* int() of a non-number *)
  | IndexError          (* list index out of range *)
  | TypeError           (* comparison of a naive with an aware datetime *)
  | UnboundLocalError   (* a local read before any assignment *)
  | ParserError         (* dateutil.parser.parse on an unreadable date *)
  | KeyError            (* a missing response header *)
  | MissingSchema       (* requests given no URL *)
  | ConnectionError     (* requests could not reach the server *)
  | FileNotFoundError.  (* os.stat, os.remove, getmtime on a missing path *)

Inductive result (A : Type) : Type :=
  | Ok (a : A)
  | Raise (e : exn).
Arguments Ok {A} a.
Arguments Raise {A} e.

(** A local file as the script observes it: modification time (POSIX,
    microseconds) and size in bytes. *)
Record File : Type := { mtime : Z; st_size : Z }.

Inductive event : Type :=
  | EPost (url : string)      (* session.post *)
  | EGet (url : string)       (* session.get *)
  | EWrite (path : string)    (* open(path, 'wb') and write *)
  | ERemove (path : string).  (* os.remove *)

Record World : Type := {
  files : gmap string File;
  ticks : nat;                (* number of files written so far *)
  trace : list event          (* side effects, oldest first *)
}.

(** [datetime]: the calendar fields as microseconds on the proleptic
    time line, and the UTC offset of its [tzinfo] ([None]: naive). *)
Record datetime : Type := { wall : Z; tzinfo : option Z }.

(** One row of a day page as [download_yr] reads it. *)
Record Row : Type := { href : string; last_mod : string; size : string }.

(** What the script gets from outside the repository. *)
Record Env : Type := {
  (* hrefs of [soup.find_all('a', string=re.compile('^\d{3}/'))] on the page
     served at a URL; [None]: the request raises *)
  day_links : string -> option (list string);
  (* rows of [soup2.find_all('a', href=re.compile('^3B-HHR.*.HDF5.html$'))]
     with the stripped text of the two following cells *)
  file_rows : string -> option (list Row);
  (* length of the body served for a GET on a file URL *)
  body_size : string -> option Z;
  (* the Last-modified header of a HEAD on a URL *)
  head_last_modified : string -> option (option string);
  (* dateutil.parser.parse; [None]: ParserError *)
  dateutil_parse : string -> option datetime;
  (* UTC offset (microseconds) of the host's local timezone at an instant *)
  utcoffset : Z -> Z;
  (* host clock read at the n-th file write *)
  clock : nat -> Z;
  (* os.getenv("AUSREFDIR") *)
  ausrefdir : option string
}.

(** State and exceptions: the world is threaded through, a raised
    exception skips the rest and keeps the world reached so far. *)
Definition M (A : Type) : Type := World -> result A * World.

#[global] Instance M_ret : MRet M := fun A a w => (Ok a, w).

#[global] Instance M_bind : MBind M := fun A B f c w =>
  match c w with
  | (Ok a, w') => f a w'
  | (Raise e, w') => (Raise e, w')
  end.

Definition ret {A : Type} (a : A) : M A := mret a.

Definition raise {A : Type} (e : exn) : M A := fun w => (Raise e, w).

Definition emit (e : event) : M unit := fun w =>
  (Ok tt, {| files := files w; ticks := ticks w; trace := trace w ++ [e] |}).

(** Reading a local variable of a Python function: [None] is a name that
    no executed statement has bound. *)
Definition local_var {A : Type} (v : option A) : M A :=
  match v with
  | Some a => ret a
  | None => raise UnboundLocalError
  end.

Definition from_option {A : Type} (e : exn) (o : option A) : M A :=
  match o with
  | Some a => ret a
  | None => raise e
  end.

(** *** Filesystem *)

Definition os_path_exists (p : string) : M bool := fun w =>
  (Ok (bool_decide (is_Some (files w !! p))), w).

Definition os_path_getmtime (p : string) : M Z := fun w =>
  (match files w !! p with
   | Some f => Ok (mtime f)
   | None => Raise FileNotFoundError
   end, w).

Definition os_stat_size (p : string) : M Z := fun w =>
  (match files w !! p with
   | Some f => Ok (st_size f)
   | None => Raise FileNotFoundError
   end, w).

Definition os_remove (p : string) : M unit := fun w =>
  match files w !! p with
  | Some _ => (Ok tt, {| files := delete p (files w); ticks := ticks w;
                         trace := trace w ++ [ERemove p] |})
  | None => (Raise FileNotFoundError, w)
  end.

(** [with open(p, 'wb') as f: f.write(body)]: the file is created or
    truncated and holds [n] bytes, stamped with the host clock. *)
Definition write_file (env : Env) (p : string) (n : Z) : M unit := fun w =>
  (Ok tt, {| files := <[p := {| mtime := clock env (ticks w); st_size := n |}]> (files w);
             ticks := S (ticks w);
             trace := trace w ++ [EWrite p] |}).

(** *** Network *)

Definition session_get {A : Type} (served : string -> option A) (url : string) : M A :=
  emit (EGet url);; from_option ConnectionError (served url).

(** [req.head(furl)]: without a URL requests raises before any traffic. *)
Definition session_head (env : Env) (furl : option string) : M (option string) :=
  match furl with
  | None => raise MissingSchema
  | Some url => from_option ConnectionError (head_last_modified env url)
  end.

(** *** datetime *)

(** [datetime.fromtimestamp(t)]: the host's local wall-clock time, naive. *)
Definition fromtimestamp (env : Env) (t : Z) : datetime :=
  {| wall := t + utcoffset env t; tzinfo := None |}.

(** [d.replace(tzinfo=pytz.UTC)]: attaches UTC, the fields are untouched. *)
Definition replace_tzinfo_utc (d : datetime) : datetime :=
  {| wall := wall d; tzinfo := Some 0 |}.

(** [a < b] on datetimes: instants when both are aware, fields when both
    are naive, TypeError when mixed. *)
Definition datetime_lt (a b : datetime) : M bool :=
  match tzinfo a, tzinfo b with
  | Some oa, Some ob => ret (wall a - oa <? wall b - ob)
  | None, None => ret (wall a <? wall b)
  | _, _ => raise TypeError
  end.

(** ** util.py *)

(** [check_mdt(req, fpath, logger, remoteModDate, furl)] *)
Definition check_mdt (env : Env) (fpath : string) (remoteModDate : string)
    (furl : option string) : M bool :=
  remoteModDate ←
    (if String.eqb remoteModDate ""
     then response ← session_head env furl;
          from_option KeyError response
     else ret remoteModDate);
  remoteModDate ← from_option ParserError (dateutil_parse env remoteModDate);
  t ← os_path_getmtime fpath;
  let localModDate := fromtimestamp env t in
  let localModDate := replace_tzinfo_utc localModDate in
  to_update ← datetime_lt localModDate remoteModDate;
  ret to_update.

(** ** gpm.py *)

(** The summary dictionary [{'new': [], 'updated': [], 'error': []}]. *)
Record Status : Type := {
  new : list string;
  updated : list string;
  error : list string
}.

Definition empty_status : Status := {| new := []; updated := []; error := [] |}.

Definition append_new (st : Status) (p : string) : Status :=
  {| new := new st ++ [p]; updated := updated st; error := error st |}.

Definition append_updated (st : Status) (p : string) : Status :=
  {| new := new st; updated := updated st ++ [p]; error := error st |}.

Definition append_error (st : Status) (p : string) : Status :=
  {| new := new st; updated := updated st; error := error st ++ [p] |}.

(** [download_file(session, url, fname, size, data_log)] *)
Definition download_file (env : Env) (url fname : string) (size : Z) : M string :=
  let status := "fine" in
  r ← session_get (body_size env) url;
  write_file env fname r;;
  local_size ← os_stat_size fname;
  if local_size <? size then ret "error" else ret status.

Definition local_name_of (data_dir : string) (yr : Z) (href : string) : string :=
  let fname := py_replace href "HDF5.html" "nc" in
  data_dir +:+ "/" +:+ py_str yr +:+ "/" +:+ fname.

Definition furl_of (http_url : string) (yr : Z) (subdir href : string) : string :=
  http_url +:+ "/" +:+ py_str yr +:+ "/"
  +:+ py_replace subdir "contents.html" ""
  +:+ py_replace href ".html" ".nc4".

(** [process_file(session, data_dir, yr, http_url, subdir, href, last_mod,
    size, status, data_log)].  The local [furl] is assigned in the first
    branch only; the second branch reads it unassigned. *)
Definition process_file (env : Env) (data_dir : string) (yr : Z)
    (http_url subdir href last_mod : string) (size : Z) (status : Status)
    : M Status :=
  let local_name := local_name_of data_dir yr href in
  ex ← os_path_exists local_name;
  if negb ex then
    let furl := Some (furl_of http_url yr subdir href) in
    url ← local_var furl;
    st ← download_file env url local_name size;
    if String.eqb st "error"
    then ret (append_error status local_name)
    else ret (append_new status local_name)
  else
    let furl : option string := None in
    update ← check_mdt env local_name last_mod None;
    if (update : bool) then
      os_remove local_name;;
      url ← local_var furl;
      st ← download_file env url local_name size;
      if String.eqb st "error"
      then ret (append_error status local_name)
      else ret (append_updated status local_name)
    else ret status.

(** The inner loop of [download_yr] over the rows of one day page. *)
Fixpoint files_loop (env : Env) (data_dir : string) (yr : Z)
    (http_url subdir : string) (rows : list Row) (done_list : list string)
    (status : Status) : M Status :=
  match rows with
  | [] => ret status
  | sub :: rest =>
      if str_in (href sub) done_list
      then files_loop env data_dir yr http_url subdir rest done_list status
      else
        let done_list := (done_list ++ [href sub])%list in
        sz ← from_option ValueError (py_int (size sub));
        status ← process_file env data_dir yr http_url subdir
                   (href sub) (last_mod sub) sz status;
        files_loop env data_dir yr http_url subdir rest done_list status
  end.

(** The test of line 112: the day folder is passed over. *)
Definition skipped (days : list string) (subdir : string) : bool :=
  negb (bool_decide (days = [])) && negb (str_in (py_take 3 subdir) days).

(** The outer loop of [download_yr] over the day links of the year page. *)
Fixpoint days_loop (env : Env) (data_dir : string) (yr : Z) (http_url : string)
    (days : list string) (links : list string) (status : Status) : M Status :=
  match links with
  | [] => ret status
  | subdir :: rest =>
      if skipped days subdir
      then days_loop env data_dir yr http_url days rest status
      else
        rows ← session_get (file_rows env)
                 (http_url +:+ "/" +:+ py_str yr +:+ "/" +:+ subdir);
        status ← files_loop env data_dir yr http_url subdir rows [] status;
        days_loop env data_dir yr http_url days rest status
  end.

(** [download_yr(session, http_url, yr, data_dir, days, data_log)] *)
Definition download_yr (env : Env) (http_url : string) (yr : Z)
    (data_dir : string) (days : list string) : M Status :=
  links ← session_get (day_links env)
            (http_url +:+ "/" +:+ py_str yr +:+ "/contents.html");
  let status := empty_status in
  days_loop env data_dir yr http_url days links status.

(** [open_session(usr, pwd)] *)
Definition open_session (usr : string) (pwd : option string) : M unit :=
  emit (EPost "http://urs.earthdata.nasa.gov").

(** [l[i]] *)
Definition py_index {A : Type} (l : list A) (i : nat) : M A :=
  from_option IndexError (l !! i).

(** Lines 181-188 of [main]: the list of day folders to download. *)
Definition day_list (day_range : string) : M (list string) :=
  let dr := py_split "/" day_range in
  dr0 ← py_index dr 0;
  if negb (String.eqb dr0 "") then
    fromd ← from_option ValueError (py_int dr0);
    dr1 ← py_index dr 1;
    tod1 ← from_option ValueError (py_int dr1);
    let tod := tod1 + 1 in
    ret (map (fun i => py_zfill 3 (py_str i)) (py_range fromd tod))
  else ret [].

Record Args : Type := {
  year : Z;
  user : string;
  pwd : option string;
  day_range : string;
  debug : bool
}.

(** [main()], from the parsed arguments to the summary handed to
    [print_summary].  Logging and the creation of the year directory are
    not part of the model. *)
Definition main (env : Env) (args : Args) : M Status :=
  let yr := year args in
  days ← day_list (day_range args);
  let root_dir := default "/g/data/ia39/aus-ref-clim-data-nci" (ausrefdir env) in
  let http_url :=
    "https://gpm1.gesdisc.eosdis.nasa.gov/opendap/hyrax/GPM_L3/GPM_3IMERGHH.06" in
  let data_dir := root_dir +:+ "/gpm/data/tmp" in
  open_session (user args) (pwd args);;
  status ← download_yr env http_url yr data_dir days;
  ret status.

(** The world after a body of [n] bytes has been fetched from [url] and
    written to [fname]. *)
Definition written (env : Env) (url fname : string) (n : Z) (w : World) : World :=
  {| files := <[fname := {| mtime := clock env (ticks w); st_size := n |}]> (files w);
     ticks := S (ticks w);
     trace := trace w ++ [EGet url; EWrite fname] |}.

(** ** The decision taken by [process_file] *)

(** The three ways [process_file] can go once its tests have returned. *)
Inductive Decision : Type := FetchNew | FetchUpdate | Skip.

(** The tests of [process_file] alone (lines 144 and 156-158). *)
Definition decide_entry (env : Env) (local_name last_mod : string) : M Decision :=
  ex ← os_path_exists local_name;
  if negb ex then ret FetchNew
  else
    update ← check_mdt env local_name last_mod None;
    if (update : bool) then ret FetchUpdate else ret Skip.

(** What [process_file] does after each decision. *)
Definition act (env : Env) (http_url : string) (yr : Z) (subdir href : string)
    (local_name : string) (size : Z) (status : Status) (d : Decision) : M Status :=
  match d with
  | FetchNew =>
      st ← download_file env (furl_of http_url yr subdir href) local_name size;
      if String.eqb st "error"
      then ret (append_error status local_name)
      else ret (append_new status local_name)
  | FetchUpdate =>
      os_remove local_name;;
      url ← local_var (@None string);
      st ← download_file env url local_name size;
      if String.eqb st "error"
      then ret (append_error status local_name)
      else ret (append_updated status local_name)
  | Skip => ret status
  end.

(** The instant [check_mdt] holds for the local file: the host's
    wall-clock reading of the modification time, taken as if it were UTC. *)
Definition local_stamp (env : Env) (f : File) : Z :=
  mtime f + utcoffset env (mtime f).

(** The instant of an aware datetime. *)
Definition instant (d : datetime) : option Z :=
  match tzinfo d with
  | Some o => Some (wall d - o)
  | None => None
  end.

(** The instant a remote date stands for, when [check_mdt] can read it
    from the listing: the string is not empty and parses to an aware
    datetime. *)
Definition remote_instant (env : Env) (last_mod : string) : option Z :=
  if String.eqb last_mod "" then None
  else dateutil_parse env last_mod ≫= instant.

(** The local file of a row is there and [check_mdt] finds it no older
    than the remote one. *)
Definition current (env : Env) (fs : gmap string File) (data_dir : string)
    (yr : Z) (r : Row) : Prop :=
  exists f t, fs !! local_name_of data_dir yr (href r) = Some f
              /\ remote_instant env (last_mod r) = Some t
              /\ t <= local_stamp env f.


(** ** Duplicate rows: each name once, first occurrence kept *)

Fixpoint first_occurrences (rows : list Row) : list Row :=
  match rows with
  | [] => []
  | r :: rest =>
      r :: List.filter (fun r' => negb (String.eqb (href r') (href r)))
             (first_occurrences rest)
  end.

(** [process_file] on each row in turn, with no test for duplicates. *)
Fixpoint process_each (env : Env) (data_dir : string) (yr : Z)
    (http_url subdir : string) (rows : list Row) (status : Status) : M Status :=
  match rows with
  | [] => ret status
  | sub :: rest =>
      sz ← from_option ValueError (py_int (size sub));
      status ← process_file env data_dir yr http_url subdir
                 (href sub) (last_mod sub) sz status;
      process_each env data_dir yr http_url subdir rest status
  end.

(** Number of GET requests in a trace. *)
Fixpoint gets (t : list event) : nat :=
  match t with
  | [] => O
  | EGet _ :: r => S (gets r)
  | _ :: r => gets r
  end.

(** ** The summary and the files it lists *)

Definition listed (st : Status) : list string :=
  (new st ++ updated st ++ error st)%list.

(** No path is listed twice, and every listed path is a file on disk. *)
Definition exclusive (st : Status) (w : World) : Prop :=
  NoDup (listed st) /\ forall p, p ∈ listed st -> is_Some (files w !! p).

(** ** The day filter *)

(** The two bounds of a range given as [start/end]. *)
Definition range_bounds (day_range : string) : option (Z * Z) :=
  match py_split "/" day_range with
  | a :: b :: _ =>
      match py_int a, py_int b with
      | Some x, Some y => Some (x, y)
      | _, _ => None
      end
  | _ => None
  end.

(** The number written by the first three characters of a day folder. *)
Definition day_number (subdir : string) : option Z :=
  match py_take 3 subdir with
  | String a (String b (String c EmptyString)) =>
      if is_digit a && is_digit b && is_digit c
      then Some (100 * digit_val a + 10 * digit_val b + digit_val c)
      else None
  | _ => None
  end.

(** The three digits of a number below 1000. *)
Definition three_digits (i : Z) : string :=
  String (digit_char (i / 100))
    (String (digit_char (i / 10 mod 10)) (String (digit_char (i mod 10)) "")).

Fixpoint has_slash (s : string) : bool :=
  match s with
  | EmptyString => false
  | String c r => Ascii.eqb c "/" || has_slash r
  end.

(** ** A timestamp reader and a remote server for the worked examples *)

Definition days_from_civil (y m d : Z) : Z :=
  let y' := if m <=? 2 then y - 1 else y in
  let era := y' / 400 in
  let yoe := y' - era * 400 in
  let mp := if m <=? 2 then m + 9 else m - 3 in
  let doy := (153 * mp + 2) / 5 + d - 1 in
  let doe := yoe * 365 + yoe / 4 - yoe / 100 + doy in
  era * 146097 + doe - 719468.

Definition num2 (a b : ascii) : option Z :=
  if is_digit a && is_digit b then Some (10 * digit_val a + digit_val b) else None.

Definition civil_micros (yh yl mo d h mi s : Z) : Z :=
  (((days_from_civil (100 * yh + yl) mo d * 24 + h) * 60 + mi) * 60 + s) * 1000000.

(** [dateutil.parser.parse] restricted to [YYYY-MM-DDTHH:MM:SS], with a
    final [Z] (aware, UTC) or without (naive); anything else is taken as
    unreadable.  It is used at such inputs only. *)
Definition iso_parse (s : string) : option datetime :=
  match list_ascii_of_string s with
  | y1 :: y2 :: y3 :: y4 :: c1 :: m1 :: m2 :: c2 :: d1 :: d2 :: c3
    :: h1 :: h2 :: c4 :: i1 :: i2 :: c5 :: s1 :: s2 :: tz =>
      if Ascii.eqb c1 "-" && Ascii.eqb c2 "-" && Ascii.eqb c3 "T"
         && Ascii.eqb c4 ":" && Ascii.eqb c5 ":"
      then
        match num2 y1 y2, num2 y3 y4, num2 m1 m2, num2 d1 d2,
              num2 h1 h2, num2 i1 i2, num2 s1 s2 with
        | Some yh, Some yl, Some mo, Some d, Some h, Some mi, Some sc =>
            let t := civil_micros yh yl mo d h mi sc in
            match tz with
            | [] => Some {| wall := t; tzinfo := None |}
            | [z] => if Ascii.eqb z "Z"
                     then Some {| wall := t; tzinfo := Some 0 |} else None
            | _ => None
            end
        | _, _, _, _, _, _, _ => None
        end
      else None
  | _ => None
  end.

(** A server with the given day links on the year page, the same rows on
    every day page and bodies of [body] bytes; a host at a fixed UTC offset
    whose clock reads [now]. *)
Definition demo_env (links : list string) (rows : list Row) (body : Z)
    (offset now : Z) : Env :=
  {| day_links := fun _ => Some links;
     file_rows := fun _ => Some rows;
     body_size := fun _ => Some body;
     head_last_modified := fun _ => None;
     dateutil_parse := iso_parse;
     utcoffset := fun _ => offset;
     clock := fun _ => now;
     ausrefdir := None |}.

Definition world_of (fs : list (string * File)) : World :=
  {| files := list_to_map fs; ticks := O; trace := [] |}.

Definition hours (n : Z) : Z := n * 3600 * 1000000.

(** 2020-01-01T00:00:00Z in microseconds since the epoch. *)
Definition jan1_2020 : Z := 1577836800 * 1000000.

Definition http_url0 : string :=
  "https://gpm1.gesdisc.eosdis.nasa.gov/opendap/hyrax/GPM_L3/GPM_3IMERGHH.06".

Definition data_dir0 : string :=
  "/g/data/ia39/aus-ref-clim-data-nci/gpm/data/tmp".

Definition href0 : string :=
  "3B-HHR.MS.MRG.3IMERG.20200101-S000000-E002959.0000.V06B.HDF5.html".

Definition local0 : string :=
  "/g/data/ia39/aus-ref-clim-data-nci/gpm/data/tmp/2020/3B-HHR.MS.MRG.3IMERG.20200101-S000000-E002959.0000.V06B.nc".

Definition furl0 : string :=
  "https://gpm1.gesdisc.eosdis.nasa.gov/opendap/hyrax/GPM_L3/GPM_3IMERGHH.06/2020/001/3B-HHR.MS.MRG.3IMERG.20200101-S000000-E002959.0000.V06B.HDF5.nc4".

Definition row0 (last_modified : string) : Row :=
  {| href := href0; last_mod := last_modified; size := "1000" |}.

(** The server of the worked examples: one day folder with one file,
    modified on 2020-01-02T00:00Z, served with 1200 bytes; a host on UTC
    whose clock reads 2020-01-03T00:00Z. *)
Definition env0 : Env :=
  demo_env ["001/contents.html"] [row0 "2020-01-02T00:00:00Z"]
    1200 0 (jan1_2020 + hours 48).

(** The world a first run of [env0] leaves when it starts with no file. *)
Definition world1 : World :=
  written env0 furl0 local0 1200
    {| files := ∅; ticks := O;
       trace := [EGet (http_url0 +:+ "/2020/contents.html");
                 EGet (http_url0 +:+ "/2020/001/contents.html")] |}.

(** ** util.py: [get_credentials] *)

Definition LF : ascii := ascii_of_nat 10.
Definition CR : ascii := ascii_of_nat 13.

(** [f.readlines()] on a file opened in text mode: a line ends at a line
    feed, a carriage return or the two in a row, each read as one line
    feed, which stays at the end of the line. *)
Fixpoint py_readlines (s : string) : list string :=
  match s with
  | EmptyString => []
  | String c r =>
      if Ascii.eqb c LF then String LF EmptyString :: py_readlines r
      else if Ascii.eqb c CR then
        match r with
        | String d r' =>
            if Ascii.eqb d LF then String LF EmptyString :: py_readlines r'
            else String LF EmptyString :: py_readlines r
        | EmptyString => [String LF EmptyString]
        end
      else
        match py_readlines r with
        | l :: ls => String c l :: ls
        | [] => [String c EmptyString]
        end
  end.

(** What [get_credentials] returns: the one-element tuple [(token,)] or
    the pair [(uname, passw)]. *)
Inductive credentials : Type :=
  | Token (flag : bool)
  | UserPass (uname passw : string).

Definition read_line (lines : list string) (i : nat) : result string :=
  match lines !! i with
  | Some l => Ok (py_replace l (String LF EmptyString) "")
  | None => Raise IndexError
  end.

(** [get_credentials(fname, token)], from the text of the file at [fname]
    ([None]: there is no such file). *)
Definition get_credentials (content : option string) (token : bool)
    : result credentials :=
  match content with
  | None => Raise FileNotFoundError
  | Some text =>
      let lines := py_readlines text in
      if token then
        match read_line lines 0 with
        | Ok utoken => Ok (Token token)
        | Raise e => Raise e
        end
      else
        match read_line lines 0 with
        | Ok uname =>
            match read_line lines 1 with
            | Ok passw => Ok (UserPass uname passw)
            | Raise e => Raise e
            end
        | Raise e => Raise e
        end
  end.

(** No line end in the string. *)
Fixpoint one_line (s : string) : bool :=
  match s with
  | EmptyString => true
  | String c r => negb (Ascii.eqb c LF) && negb (Ascii.eqb c CR) && one_line r
  end.

(** ** Files kept from one world to another *)

Definition kept (w w' : World) : Prop :=
  forall p f, files w !! p = Some f -> files w' !! p = Some f.

(** From the world [w0] at the start of the run: the files of [w0] are
    kept, and the paths listed are those absent in [w0] and present now. *)
Definition accounts (w0 : World) (st : Status) (w : World) : Prop :=
  kept w0 w
  /\ forall p, p ∈ listed st <-> files w0 !! p = None /\ is_Some (files w !! p).


(** The server address that [main] uses. *)
Definition main_http_url : string :=
  "https://gpm1.gesdisc.eosdis.nasa.gov/opendap/hyrax/GPM_L3/GPM_3IMERGHH.06".

(** ** Entries that a run reaches *)

(** A remote date that [check_mdt] cannot read: the empty string, for
    which it falls back on a HEAD request that has no URL, or a string on
    which [dateutil.parser.parse] raises ParserError. *)
Definition unreadable (env : Env) (last_mod : string) : Prop :=
  last_mod = "" \/ dateutil_parse env last_mod = None.

(** The row [r] is one that [download_yr] hands to [process_file], unless
    the run has raised before: its folder [subdir] is on the year page and
    not passed over, and [r] is the first row of its name on the page of
    the folder. *)
Definition processed (env : Env) (http_url : string) (yr : Z)
    (days : list string) (subdir : string) (r : Row) : Prop :=
  exists links rows,
    day_links env (http_url +:+ "/" +:+ py_str yr +:+ "/contents.html") = Some links
    /\ In subdir links
    /\ skipped days subdir = false
    /\ file_rows env (http_url +:+ "/" +:+ py_str yr +:+ "/" +:+ subdir) = Some rows
    /\ In r (first_occurrences rows).

(** The data directory that [main] uses. *)
Definition main_data_dir (env : Env) : string :=
  default "/g/data/ia39/aus-ref-clim-data-nci" (ausrefdir env) +:+ "/gpm/data/tmp".

(** ** Day ranges *)


(** No range is given: nothing stands before the first [/]. *)
Definition no_range (day_range : string) : Prop :=
  day_range = "" \/ starts_with "/" day_range = true.

(** * Properties *)

Example py_replace_ex :
  py_replace "3B-HHR.MS.MRG.3IMERG.20200101-S000000-E002959.0000.V06B.HDF5.html"
             "HDF5.html" "nc"
  = "3B-HHR.MS.MRG.3IMERG.20200101-S000000-E002959.0000.V06B.nc".
Proof. reflexivity. Qed.

Example py_split_ex : py_split "/" "010/012" = ["010"; "012"].
Proof. reflexivity. Qed.

Example py_split_default : py_split "/" "/" = [""; ""].
Proof. reflexivity. Qed.

Example py_int_ex : py_int "012" = Some 12 /\ py_int " -7 " = Some (-7)
                    /\ py_int "1_000" = Some 1000 /\ py_int "abc" = None
                    /\ py_int "" = None /\ py_int "1__0" = None.
Proof. repeat split; reflexivity. Qed.

Example py_str_ex : py_str 0 = "0" /\ py_str 2020 = "2020" /\ py_str (-5) = "-5".
Proof. repeat split; reflexivity. Qed.

Example py_zfill_ex :
  py_zfill 3 (py_str 7) = "007" /\ py_zfill 3 (py_str (-5)) = "-05"
  /\ py_zfill 3 (py_str 1000) = "1000".
Proof. repeat split; reflexivity. Qed.

Example py_range_ex : py_range 10 13 = [10; 11; 12] /\ py_range 12 11 = [].
Proof. split; reflexivity. Qed.

Example iso_parse_ex :
  iso_parse "2020-01-01T00:00:00Z" = Some {| wall := jan1_2020; tzinfo := Some 0 |}
  /\ iso_parse "2020-01-02T00:00:00" = Some {| wall := jan1_2020 + hours 24; tzinfo := None |}
  /\ iso_parse "yesterday-ish" = None.
Proof. repeat split; vm_compute; reflexivity. Qed.

Example names_ex :
  local_name_of data_dir0 2020 href0 = local0
  /\ furl_of http_url0 2020 "001/contents.html" href0 = furl0.
Proof. split; vm_compute; reflexivity. Qed.

(** ** The monad *)

Lemma bind_unfold {A B : Type} (c : M A) (f : A -> M B) (w : World) :
  (c ≫= f) w = match c w with
               | (Ok a, w') => f a w'
               | (Raise e, w') => (Raise e, w')
               end.
Proof. reflexivity. Qed.

Lemma bind_Ok {A B : Type} (c : M A) (f : A -> M B) (w w' : World) (a : A) :
  c w = (Ok a, w') -> (c ≫= f) w = f a w'.
Proof. intros H. rewrite bind_unfold, H. reflexivity. Qed.

Lemma bind_Raise {A B : Type} (c : M A) (f : A -> M B) (w w' : World) (e : exn) :
  c w = (Raise e, w') -> (c ≫= f) w = (Raise e, w').
Proof. intros H. rewrite bind_unfold, H. reflexivity. Qed.

Lemma bind_inv_Ok {A B : Type} (c : M A) (f : A -> M B) (w w' : World) (b : B) :
  (c ≫= f) w = (Ok b, w') ->
  exists a w1, c w = (Ok a, w1) /\ f a w1 = (Ok b, w').
Proof.
  rewrite bind_unfold. destruct (c w) as [[a|e] w1]; intros H.
  - exists a, w1. split; [reflexivity | exact H].
  - discriminate H.
Qed.

Ltac munfold :=
  repeat progress
    (unfold mbind, M_bind, mret, M_ret, ret, raise, from_option, local_var,
       emit, os_path_exists, os_path_getmtime, os_stat_size, os_remove,
       write_file, session_get, session_head, datetime_lt in *;
     cbv beta iota in *).

(** [process_file] is its decision followed by the matching action. *)
Lemma process_file_decide env data_dir yr http_url subdir href last_mod size st w :
  process_file env data_dir yr http_url subdir href last_mod size st w
  = (decide_entry env (local_name_of data_dir yr href) last_mod
       ≫= act env http_url yr subdir href (local_name_of data_dir yr href) size st) w.
Proof.
  unfold process_file, decide_entry.
  rewrite !bind_unfold. unfold os_path_exists.
  destruct (negb _); [reflexivity |].
  rewrite !bind_unfold.
  destruct (check_mdt _ _ _ _ _) as [[[]|e] w1]; reflexivity.
Qed.

(** ** [check_mdt] *)

Lemma check_mdt_empty env p w :
  check_mdt env p "" None w = (Raise MissingSchema, w).
Proof. reflexivity. Qed.

Lemma check_mdt_unreadable env p s w :
  s <> "" -> dateutil_parse env s = None ->
  check_mdt env p s None w = (Raise ParserError, w).
Proof.
  intros Hs Hp. unfold check_mdt.
  apply String.eqb_neq in Hs. rewrite Hs. munfold. rewrite Hp. reflexivity.
Qed.

Lemma check_mdt_naive env p s f r w :
  s <> "" -> files w !! p = Some f ->
  dateutil_parse env s = Some {| wall := r; tzinfo := None |} ->
  check_mdt env p s None w = (Raise TypeError, w).
Proof.
  intros Hs Hf Hp. unfold check_mdt.
  apply String.eqb_neq in Hs. rewrite Hs. munfold. rewrite Hp, Hf. reflexivity.
Qed.

Lemma check_mdt_aware env p s f r o w :
  s <> "" -> files w !! p = Some f ->
  dateutil_parse env s = Some {| wall := r; tzinfo := Some o |} ->
  check_mdt env p s None w = (Ok (local_stamp env f <? r - o), w).
Proof.
  intros Hs Hf Hp. unfold check_mdt.
  apply String.eqb_neq in Hs. rewrite Hs. munfold. rewrite Hp, Hf. simpl.
  unfold local_stamp. rewrite Z.sub_0_r. reflexivity.
Qed.

(** [check_mdt] called without a URL leaves the world as it is. *)
Lemma check_mdt_world env p s w r w1 :
  check_mdt env p s None w = (r, w1) -> w1 = w.
Proof.
  unfold check_mdt. munfold.
  destruct (String.eqb s ""); [intros [= _ <-]; reflexivity |].
  destruct (dateutil_parse env s) as [d|]; [| intros [= _ <-]; reflexivity].
  destruct (files w !! p); [| intros [= _ <-]; reflexivity].
  simpl. destruct (tzinfo d); intros [= _ <-]; reflexivity.
Qed.

(** ** [decide_entry] *)

Lemma exists_None p w : files w !! p = None -> os_path_exists p w = (Ok false, w).
Proof.
  intros H. unfold os_path_exists. rewrite H.
  rewrite bool_decide_eq_false_2; [reflexivity |]. intros [x Hx]. discriminate.
Qed.

Lemma exists_Some p f w : files w !! p = Some f -> os_path_exists p w = (Ok true, w).
Proof.
  intros H. unfold os_path_exists. rewrite H.
  rewrite bool_decide_eq_true_2; [reflexivity | eauto].
Qed.

Lemma decide_entry_absent env p s w :
  files w !! p = None -> decide_entry env p s w = (Ok FetchNew, w).
Proof.
  intros H. unfold decide_entry.
  rewrite (bind_Ok _ _ _ _ _ (exists_None _ _ H)). reflexivity.
Qed.

Lemma decide_entry_present env p s f w :
  files w !! p = Some f ->
  decide_entry env p s w
  = (check_mdt env p s None
       ≫= fun update : bool => if update then ret FetchUpdate else ret Skip) w.
Proof.
  intros H. unfold decide_entry.
  rewrite (bind_Ok _ _ _ _ _ (exists_Some _ _ _ H)). reflexivity.
Qed.

(** The decision the code takes when the remote date reads as an aware
    datetime: the comparison is on [local_stamp], the host's wall-clock
    reading of the modification time. *)
Lemma decide_entry_aware env p s f r o w :
  s <> "" -> files w !! p = Some f ->
  dateutil_parse env s = Some {| wall := r; tzinfo := Some o |} ->
  decide_entry env p s w
  = (Ok (if local_stamp env f <? r - o then FetchUpdate else Skip), w).
Proof.
  intros Hs Hf Hp. rewrite (decide_entry_present _ _ _ _ _ Hf).
  rewrite (bind_Ok _ _ _ _ _ (check_mdt_aware _ _ _ _ _ _ _ Hs Hf Hp)).
  destruct (_ <? _); reflexivity.
Qed.

Lemma decide_entry_raises env p s f w :
  files w !! p = Some f ->
  s = "" \/ dateutil_parse env s = None ->
  exists e, decide_entry env p s w = (Raise e, w)
            /\ (e = MissingSchema \/ e = ParserError).
Proof.
  intros Hf Hs. rewrite (decide_entry_present _ _ _ _ _ Hf).
  destruct (String.eqb_spec s "") as [-> | Hne].
  - exists MissingSchema. split; [| now left].
    apply bind_Raise, check_mdt_empty.
  - destruct Hs as [Hs | Hs]; [contradiction |].
    exists ParserError. split; [| now right].
    apply bind_Raise, check_mdt_unreadable; assumption.
Qed.

(** ** [download_file] *)

Lemma download_file_served env url fname size n w :
  body_size env url = Some n ->
  download_file env url fname size w
  = (Ok (if n <? size then "error" else "fine"), written env url fname n w).
Proof.
  intros Hb. unfold download_file, written. munfold. simpl. rewrite Hb. simpl.
  rewrite lookup_insert_eq. simpl. rewrite <- app_assoc. simpl.
  destruct (n <? size); reflexivity.
Qed.

Lemma download_file_unreachable env url fname size w :
  body_size env url = None ->
  download_file env url fname size w
  = (Raise ConnectionError,
     {| files := files w; ticks := ticks w; trace := trace w ++ [EGet url] |}).
Proof.
  intros Hb. unfold download_file. munfold. simpl. rewrite Hb. reflexivity.
Qed.

(** ** [process_file], branch by branch *)

Section ProcessFile.
Variable env : Env.
Variables (data_dir : string) (yr : Z) (http_url subdir href last_mod : string).
Variables (size : Z) (st : Status).

Local Abbreviation local_name := (local_name_of data_dir yr href).
Local Abbreviation furl := (furl_of http_url yr subdir href).

Lemma process_file_new w n :
  files w !! local_name = None ->
  body_size env furl = Some n ->
  process_file env data_dir yr http_url subdir href last_mod size st w
  = (Ok (if n <? size then append_error st local_name
         else append_new st local_name),
     written env furl local_name n w).
Proof.
  intros Hf Hb. rewrite process_file_decide.
  rewrite (bind_Ok _ _ _ _ _ (decide_entry_absent _ _ _ _ Hf)).
  unfold act.
  rewrite (bind_Ok _ _ _ _ _ (download_file_served _ _ _ _ _ _ Hb)).
  destruct (n <? size); reflexivity.
Qed.

Lemma process_file_unreachable w :
  files w !! local_name = None ->
  body_size env furl = None ->
  process_file env data_dir yr http_url subdir href last_mod size st w
  = (Raise ConnectionError,
     {| files := files w; ticks := ticks w; trace := trace w ++ [EGet furl] |}).
Proof.
  intros Hf Hb. rewrite process_file_decide.
  rewrite (bind_Ok _ _ _ _ _ (decide_entry_absent _ _ _ _ Hf)).
  unfold act.
  apply bind_Raise, download_file_unreachable, Hb.
Qed.

Lemma process_file_current w f r o :
  files w !! local_name = Some f ->
  last_mod <> "" ->
  dateutil_parse env last_mod = Some {| wall := r; tzinfo := Some o |} ->
  r - o <= local_stamp env f ->
  process_file env data_dir yr http_url subdir href last_mod size st w = (Ok st, w).
Proof.
  intros Hf Hs Hp Hle. rewrite process_file_decide.
  rewrite (bind_Ok _ _ _ _ _ (decide_entry_aware _ _ _ _ _ _ _ Hs Hf Hp)).
  destruct (Z.ltb_spec (local_stamp env f) (r - o)); [lia | reflexivity].
Qed.

(** The update branch: the file is removed, then the read of [furl],
    which this branch never assigned, raises. *)
Lemma process_file_stale w f r o :
  files w !! local_name = Some f ->
  last_mod <> "" ->
  dateutil_parse env last_mod = Some {| wall := r; tzinfo := Some o |} ->
  local_stamp env f < r - o ->
  process_file env data_dir yr http_url subdir href last_mod size st w
  = (Raise UnboundLocalError,
     {| files := delete local_name (files w); ticks := ticks w;
        trace := trace w ++ [ERemove local_name] |}).
Proof.
  intros Hf Hs Hp Hlt. rewrite process_file_decide.
  rewrite (bind_Ok _ _ _ _ _ (decide_entry_aware _ _ _ _ _ _ _ Hs Hf Hp)).
  destruct (Z.ltb_spec (local_stamp env f) (r - o)); [| lia].
  unfold act. munfold. rewrite Hf. reflexivity.
Qed.

Lemma process_file_raises w f :
  files w !! local_name = Some f ->
  last_mod = "" \/ dateutil_parse env last_mod = None ->
  exists e,
    process_file env data_dir yr http_url subdir href last_mod size st w
    = (Raise e, w)
    /\ (e = MissingSchema \/ e = ParserError).
Proof.
  intros Hf Hs. destruct (decide_entry_raises env _ _ _ _ Hf Hs) as (e & He & Hc).
  exists e. split; [| exact Hc].
  rewrite process_file_decide. apply bind_Raise, He.
Qed.

(** Whatever happens, a call that returns has either left the summary
    as it was, with no file touched, or fetched a file that was absent
    and appended its path to [new] or to [error]. *)
Lemma process_file_Ok_inv w st' w' :
  process_file env data_dir yr http_url subdir href last_mod size st w = (Ok st', w') ->
  (exists f, files w !! local_name = Some f /\ st' = st /\ w' = w
             /\ decide_entry env local_name last_mod w = (Ok Skip, w))
  \/ (exists n, files w !! local_name = None
                /\ body_size env furl = Some n
                /\ w' = written env furl local_name n w
                /\ decide_entry env local_name last_mod w = (Ok FetchNew, w)
                /\ st' = (if n <? size then append_error st local_name
                          else append_new st local_name)).
Proof.
  intros H.
  destruct (files w !! local_name) as [f|] eqn:Hf.
  - left. exists f. split; [reflexivity |].
    pose proof (decide_entry_present env _ last_mod _ _ Hf) as Hd.
    rewrite bind_unfold in Hd.
    destruct (check_mdt env local_name last_mod None w) as [[[]|e] w1] eqn:Hc;
      apply check_mdt_world in Hc; subst w1;
      rewrite process_file_decide, bind_unfold, Hd in H.
    + exfalso. revert H. unfold act. munfold. rewrite Hf. discriminate.
    + unfold act, ret, mret, M_ret in H. injection H as <- <-.
      repeat split; try reflexivity. exact Hd.
    + discriminate H.
  - right. destruct (body_size env furl) as [n|] eqn:Hb.
    + exists n. rewrite (process_file_new _ _ Hf Hb) in H. injection H as <- <-.
      repeat split; try reflexivity. apply decide_entry_absent, Hf.
    + rewrite (process_file_unreachable _ Hf Hb) in H. discriminate H.
Qed.

End ProcessFile.

(** ** The size check of [download_file] *)

(** C6: once the body has been fetched and written, [download_file]
    compares the size on disk with the expected size by an inequality: it
    returns 'fine' exactly when the size on disk is at least the expected
    size, and 'error' exactly when it is strictly smaller. *)
Theorem download_file_size_check env url fname size n w :
  body_size env url = Some n ->
  exists status w',
    download_file env url fname size w = (Ok status, w')
    /\ os_stat_size fname w' = (Ok n, w')
    /\ (status = "fine" <-> size <= n)
    /\ (status = "error" <-> n < size).
Proof.
  intros Hb. rewrite (download_file_served _ _ _ size _ w Hb).
  eexists _, _. split; [reflexivity |]. split.
  - unfold os_stat_size, written. simpl. rewrite lookup_insert_eq. reflexivity.
  - destruct (Z.ltb_spec n size); split; split; intros H0;
      try reflexivity; try discriminate; try lia.
Qed.

Lemma download_file_size_check_witness :
  exists status w',
    download_file (demo_env [] [] 1200 0 jan1_2020) furl0 local0 1000 (world_of [])
    = (Ok status, w')
    /\ os_stat_size local0 w' = (Ok 1200, w')
    /\ (status = "fine" <-> 1000 <= 1200)
    /\ (status = "error" <-> 1200 < 1000).
Proof.
  apply (download_file_size_check (demo_env [] [] 1200 0 jan1_2020)
           furl0 local0 1000 1200 (world_of [])).
  reflexivity.
Defined.

(** C9: when the body written is smaller than expected, [download_file]
    has already written it to the destination before the size check; it
    returns 'error' and does not remove the file, which a later existence
    test finds, so that the entry is not fetched as a new file again. *)
Theorem truncated_download_left_on_disk env url fname size n w :
  body_size env url = Some n ->
  n < size ->
  exists w',
    download_file env url fname size w = (Ok "error", w')
    /\ files w' !! fname = Some {| mtime := clock env (ticks w); st_size := n |}
    /\ trace w' = (trace w ++ [EGet url; EWrite fname])%list
    /\ os_path_exists fname w' = (Ok true, w')
    /\ forall last_mod, decide_entry env fname last_mod w' <> (Ok FetchNew, w').
Proof.
  intros Hb Hlt. rewrite (download_file_served _ _ _ size _ w Hb).
  destruct (Z.ltb_spec n size); [| lia].
  eexists. split; [reflexivity |].
  assert (Hf : files (written env url fname n w) !! fname
               = Some {| mtime := clock env (ticks w); st_size := n |}).
  { unfold written. simpl. apply lookup_insert_eq. }
  split; [exact Hf |]. split; [reflexivity |].
  split; [eapply exists_Some, Hf |].
  intros last_mod. rewrite (decide_entry_present _ _ _ _ _ Hf), bind_unfold.
  destruct (check_mdt _ _ _ _ _) as [[[]|e] w1]; discriminate.
Qed.

Lemma truncated_download_left_on_disk_witness :
  exists w',
    download_file (demo_env [] [] 400 0 jan1_2020) furl0 local0 1000 (world_of [])
    = (Ok "error", w')
    /\ files w' !! local0 = Some {| mtime := jan1_2020; st_size := 400 |}
    /\ trace w' = [EGet furl0; EWrite local0]
    /\ os_path_exists local0 w' = (Ok true, w')
    /\ forall last_mod,
         decide_entry (demo_env [] [] 400 0 jan1_2020) local0 last_mod w'
         <> (Ok FetchNew, w').
Proof.
  apply (truncated_download_left_on_disk (demo_env [] [] 400 0 jan1_2020)
           furl0 local0 1000 400 (world_of [])).
  - reflexivity.
  - lia.
Defined.

(** ** The decision and the host's time zone *)

(** On a host whose local time is UTC the comparison of [check_mdt] is
    the comparison of the two instants. *)
Lemma decide_entry_utc_host env p s f t w :
  utcoffset env (mtime f) = 0 ->
  files w !! p = Some f ->
  remote_instant env s = Some t ->
  decide_entry env p s w = (Ok (if mtime f <? t then FetchUpdate else Skip), w).
Proof.
  intros Hz Hf Ht. unfold remote_instant in Ht.
  destruct (String.eqb_spec s "") as [| Hs]; [discriminate |].
  destruct (dateutil_parse env s) as [[r [o|]]|] eqn:Hp; simpl in Ht; try discriminate.
  injection Ht as <-.
  rewrite (decide_entry_aware _ _ _ _ _ _ _ Hs Hf Hp).
  unfold local_stamp. rewrite Hz, Z.add_0_r. reflexivity.
Qed.

(** An empty local archive and one remote entry of expected size 1000
    served with 1200 bytes: fetched and recorded in [new]. *)
Example scenario_A :
  download_yr env0 http_url0 2020 data_dir0 [] (world_of [])
  = (Ok (append_new empty_status local0), world1).
Proof. vm_compute. reflexivity. Qed.

(** C1: on a host ten hours ahead of UTC, a local file last modified at
    2020-01-01T20:00Z is compared with a remote entry modified at
    2020-01-02T00:00Z.  The local modification time is strictly earlier,
    yet the entry is passed over: [check_mdt] reads the modification time
    as local wall-clock time (06:00 on 2 January) and labels it UTC. *)
Theorem host_timezone_skews_decision :
  let env := demo_env ["001/contents.html"] [row0 "2020-01-02T00:00:00Z"]
               1200 (hours 10) (jan1_2020 + hours 48) in
  let f := {| mtime := jan1_2020 + hours 20; st_size := 1200 |} in
  let w := world_of [(local0, f)] in
  (dateutil_parse env "2020-01-02T00:00:00Z" ≫= instant) = Some (jan1_2020 + hours 24)
  /\ mtime f < jan1_2020 + hours 24
  /\ decide_entry env local0 "2020-01-02T00:00:00Z" w = (Ok Skip, w)
  /\ process_file env data_dir0 2020 http_url0 "001/contents.html" href0
       "2020-01-02T00:00:00Z" 1000 empty_status w = (Ok empty_status, w).
Proof. repeat split; vm_compute; reflexivity. Qed.

(** ** The update branch *)

(** C2: a local file modified at 2020-01-01T00:00Z and a remote entry
    modified at 2020-01-02T00:00Z.  The entry is classified for update and
    the local file is removed, but no fetch follows: the download URL was
    never built on this branch, the read of [furl] raises
    UnboundLocalError, nothing is appended to [updated] or [error], and the
    exception ends [download_yr]. *)
Theorem scenario_B_update_raises :
  let env := demo_env ["001/contents.html"] [row0 "2020-01-02T00:00:00Z"]
               1200 0 (jan1_2020 + hours 48) in
  let w := world_of [(local0, {| mtime := jan1_2020; st_size := 1200 |})] in
  decide_entry env local0 "2020-01-02T00:00:00Z" w = (Ok FetchUpdate, w)
  /\ process_file env data_dir0 2020 http_url0 "001/contents.html" href0
       "2020-01-02T00:00:00Z" 1000 empty_status w
     = (Raise UnboundLocalError,
        {| files := ∅; ticks := O; trace := [ERemove local0] |})
  /\ fst (download_yr env http_url0 2020 data_dir0 [] w) = Raise UnboundLocalError.
Proof. repeat split; vm_compute; reflexivity. Qed.

(** ** Unreadable remote dates *)

(** C3, as stated, fails: with a local file present and an empty remote
    date, [process_file] does not return a summary with the path in
    [error]; it raises. *)
Lemma scenario_C_not_recorded :
  let env := demo_env ["001/contents.html"] [row0 ""] 1200 0 (jan1_2020 + hours 48) in
  let w := world_of [(local0, {| mtime := jan1_2020; st_size := 1200 |})] in
  process_file env data_dir0 2020 http_url0 "001/contents.html" href0
    "" 1000 empty_status w = (Raise MissingSchema, w)
  /\ ~ exists w', process_file env data_dir0 2020 http_url0 "001/contents.html"
                    href0 "" 1000 empty_status w
                  = (Ok (append_error empty_status local0), w').
Proof.
  intros env w.
  assert (E : process_file env data_dir0 2020 http_url0 "001/contents.html" href0
                "" 1000 empty_status w = (Raise MissingSchema, w))
    by (vm_compute; reflexivity).
  split; [exact E |].
  intros [w' H]. rewrite E in H. discriminate H.
Qed.

(** ** Duplicate rows of a day page *)

Lemma str_in_In s l : str_in s l = true <-> In s l.
Proof.
  unfold str_in. rewrite existsb_exists. split.
  - intros (x & Hx & He). apply String.eqb_eq in He. subst. exact Hx.
  - intros H. exists s. split; [exact H | apply String.eqb_refl].
Qed.

Lemma str_in_snoc s l h :
  str_in s (l ++ [h]) = str_in s l || String.eqb s h.
Proof. unfold str_in. rewrite existsb_app. simpl. rewrite orb_false_r. reflexivity. Qed.

Lemma filter_filter_weaker {A : Type} (P Q : A -> bool) (l : list A) :
  (forall x, P x = true -> Q x = true) ->
  List.filter P (List.filter Q l) = List.filter P l.
Proof.
  intros HPQ. induction l as [|x l IH]; simpl; [reflexivity |].
  destruct (Q x) eqn:HQ; simpl.
  - rewrite IH. reflexivity.
  - destruct (P x) eqn:HP; [| exact IH].
    apply HPQ in HP. congruence.
Qed.

Lemma filter_ext_bool {A : Type} (P Q : A -> bool) (l : list A) :
  (forall x, P x = Q x) -> List.filter P l = List.filter Q l.
Proof.
  intros H. induction l as [|x l IH]; simpl; [reflexivity |].
  rewrite H, IH. reflexivity.
Qed.

Lemma filter_filter_andb {A : Type} (P Q : A -> bool) (l : list A) :
  List.filter P (List.filter Q l) = List.filter (fun x => Q x && P x) l.
Proof.
  induction l as [|x l IH]; simpl; [reflexivity |].
  destruct (Q x); simpl; [destruct (P x) |]; rewrite IH; reflexivity.
Qed.

Section Dedup.
Variable env : Env.
Variables (data_dir : string) (yr : Z) (http_url subdir : string).

Local Abbreviation fresh done := (fun r : Row => negb (str_in (href r) done)).

(** The loop with its [done_list] visits the first occurrences that are
    not yet in the list. *)
Lemma files_loop_filter rows : forall done st w,
  files_loop env data_dir yr http_url subdir rows done st w
  = process_each env data_dir yr http_url subdir
      (List.filter (fresh done) (first_occurrences rows)) st w.
Proof.
  induction rows as [|r rest IH]; intros done st w; [reflexivity |].
  cbn [files_loop first_occurrences List.filter].
  destruct (str_in (href r) done) eqn:Hin; cbn [negb].
  - rewrite IH. f_equal. symmetry. apply filter_filter_weaker.
    intros x Hx. apply negb_true_iff. apply negb_true_iff in Hx.
    destruct (String.eqb_spec (href x) (href r)) as [He|]; [| reflexivity].
    rewrite He in Hx. congruence.
  - cbn [process_each]. rewrite !bind_unfold.
    destruct (from_option ValueError (py_int (size r)) w) as [[sz|e] w1];
      [| reflexivity].
    rewrite !bind_unfold.
    destruct (process_file _ _ _ _ _ _ _ _ _ _) as [[st1|e] w2]; [| reflexivity].
    rewrite IH. f_equal.
    rewrite filter_filter_andb. apply filter_ext_bool.
    intros x. rewrite str_in_snoc, negb_orb, andb_comm. reflexivity.
Qed.

Lemma process_file_gets href last_mod sz st w r w' :
  process_file env data_dir yr http_url subdir href last_mod sz st w = (r, w') ->
  (gets (trace w') <= gets (trace w) + 1)%nat.
Proof.
  assert (Hsnoc : forall t e, (gets (t ++ [e]) <= gets t + 1)%nat).
  { intros t e. induction t as [|[] t IHt]; simpl; [destruct e; simpl |..]; lia. }
  intros H.
  destruct (files w !! local_name_of data_dir yr href) as [f|] eqn:Hf.
  - rewrite process_file_decide, bind_unfold,
      (decide_entry_present _ _ _ _ _ Hf), bind_unfold in H.
    destruct (check_mdt _ _ _ _ _) as [[[]|e] w1] eqn:Hc;
      apply check_mdt_world in Hc; subst w1.
    + revert H. unfold act. munfold. rewrite Hf.
      intros [= _ <-]. simpl. apply Hsnoc.
    + revert H. unfold act. munfold. intros [= _ <-]. lia.
    + injection H as _ <-. lia.
  - destruct (body_size env (furl_of http_url yr subdir href)) as [n|] eqn:Hb.
    + rewrite (process_file_new _ _ _ _ _ _ _ _ _ _ _ Hf Hb) in H.
      injection H as _ <-. unfold written. simpl.
      replace (trace w ++ [EGet (furl_of http_url yr subdir href);
                           EWrite (local_name_of data_dir yr href)])%list
        with ((trace w ++ [EGet (furl_of http_url yr subdir href)])
              ++ [EWrite (local_name_of data_dir yr href)])%list
        by (rewrite <- app_assoc; reflexivity).
      clear. induction (trace w) as [|[] t IHt]; simpl in *; lia.
    + rewrite (process_file_unreachable _ _ _ _ _ _ _ _ _ _ Hf Hb) in H.
      injection H as _ <-. simpl. apply Hsnoc.
Qed.

Lemma process_each_gets rows : forall st w r w',
  process_each env data_dir yr http_url subdir rows st w = (r, w') ->
  (gets (trace w') <= gets (trace w) + length rows)%nat.
Proof.
  induction rows as [|x rest IH]; intros st w r w' H.
  - injection H as _ <-. simpl. lia.
  - cbn [process_each] in H. rewrite bind_unfold in H.
    destruct (py_int (size x)) as [sz|]; simpl in H.
    + rewrite bind_unfold in H.
      destruct (process_file _ _ _ _ _ _ _ _ _ _) as [[st1|e] w1] eqn:Hp.
      * apply process_file_gets in Hp. apply IH in H. simpl. lia.
      * apply process_file_gets in Hp. injection H as _ <-. simpl. lia.
    + injection H as _ <-. simpl. lia.
Qed.

End Dedup.

Lemma first_occurrences_incl rows r :
  In r (first_occurrences rows) -> In r rows.
Proof.
  induction rows as [|x rest IH]; simpl; [tauto |].
  intros [-> | H]; [now left |].
  apply filter_In in H. right. apply IH, H.
Qed.

Lemma first_occurrences_names rows h :
  In h (map href rows) <-> In h (map href (first_occurrences rows)).
Proof.
  induction rows as [|x rest IH]; simpl; [tauto |].
  destruct (String.eqb_spec h (href x)) as [-> | Hne]; [tauto |].
  rewrite IH, !in_map_iff. split.
  - intros [He | (r & Hr & Hin)]; [congruence |].
    right. exists r. split; [exact Hr |].
    apply filter_In. split; [exact Hin |].
    apply negb_true_iff, String.eqb_neq. congruence.
  - intros [He | (r & Hr & Hin)]; [congruence |].
    right. exists r. split; [exact Hr |]. apply filter_In in Hin. tauto.
Qed.

Lemma first_occurrences_NoDup rows : NoDup (map href (first_occurrences rows)).
Proof.
  induction rows as [|x rest IH]; simpl; [constructor |].
  apply NoDup_cons_2.
  - rewrite list_elem_of_In, in_map_iff. intros (r & Hr & Hin).
    apply filter_In in Hin. destruct Hin as [_ Hin].
    apply negb_true_iff, String.eqb_neq in Hin. congruence.
  - revert IH. generalize (first_occurrences rest). intros l.
    induction l as [|y l IHl]; simpl; [constructor |].
    intros Hnd. apply NoDup_cons in Hnd. destruct Hnd as [Hy Hnd].
    destruct (negb _); simpl; [| apply IHl, Hnd].
    apply NoDup_cons_2; [| apply IHl, Hnd].
    rewrite list_elem_of_In, in_map_iff in *. intros (r & Hr & Hin).
    apply Hy. exists r. split; [exact Hr |]. apply filter_In in Hin. tauto.
Qed.

(** C5: on a day page where names repeat, the loop of [download_yr]
    behaves as [process_file] run once on each distinct name, in order
    of first appearance: a later row with a name already seen is dropped
    before anything is decided.  Each name of the page is among those
    processed, none twice, and the page costs at most one GET per distinct
    name. *)
Theorem files_loop_dedup env data_dir yr http_url subdir rows st w :
  files_loop env data_dir yr http_url subdir rows [] st w
  = process_each env data_dir yr http_url subdir (first_occurrences rows) st w
  /\ NoDup (map href (first_occurrences rows))
  /\ (forall h, In h (map href rows) <-> In h (map href (first_occurrences rows)))
  /\ (gets (trace (snd (files_loop env data_dir yr http_url subdir rows [] st w)))
      <= gets (trace w) + length (first_occurrences rows))%nat.
Proof.
  assert (Heq : files_loop env data_dir yr http_url subdir rows [] st w
                = process_each env data_dir yr http_url subdir
                    (first_occurrences rows) st w).
  { rewrite files_loop_filter. f_equal.
    generalize (first_occurrences rows). intros l.
    induction l as [|x l IH]; simpl; [reflexivity |]. f_equal. exact IH. }
  split; [exact Heq |].
  split; [apply first_occurrences_NoDup |].
  split; [apply first_occurrences_names |].
  rewrite Heq.
  destruct (process_each _ _ _ _ _ _ _ _) as [r w'] eqn:Hp.
  apply process_each_gets in Hp. exact Hp.
Qed.

(** ** The summary lists stay exclusive *)

Lemma listed_append_new st p x :
  x ∈ listed (append_new st p) <-> x = p \/ x ∈ listed st.
Proof.
  unfold listed, append_new. simpl. rewrite !elem_of_app, list_elem_of_singleton.
  tauto.
Qed.

Lemma listed_append_error st p x :
  x ∈ listed (append_error st p) <-> x = p \/ x ∈ listed st.
Proof.
  unfold listed, append_error. simpl. rewrite !elem_of_app, list_elem_of_singleton.
  tauto.
Qed.

Lemma NoDup_append_new st p :
  NoDup (listed st) -> p ∉ listed st -> NoDup (listed (append_new st p)).
Proof.
  intros Hnd Hp. unfold listed, append_new in *. simpl.
  rewrite <- app_assoc. simpl. rewrite <- Permutation_middle.
  apply NoDup_cons_2; assumption.
Qed.

Lemma NoDup_append_error st p :
  NoDup (listed st) -> p ∉ listed st -> NoDup (listed (append_error st p)).
Proof.
  intros Hnd Hp. unfold listed, append_error in *. simpl.
  rewrite !app_assoc. rewrite <- Permutation_cons_append.
  rewrite <- app_assoc. apply NoDup_cons_2; assumption.
Qed.

Lemma exclusive_same_files st w w' :
  files w' = files w -> exclusive st w -> exclusive st w'.
Proof. intros Hf [Hnd Hex]. split; [exact Hnd |]. rewrite Hf. exact Hex. Qed.

Section Exclusive.
Variable env : Env.
Variables (data_dir : string) (yr : Z) (http_url : string).

Lemma process_file_keeps_exclusive subdir href last_mod size st w st' w' :
  exclusive st w ->
  process_file env data_dir yr http_url subdir href last_mod size st w = (Ok st', w') ->
  exclusive st' w'.
Proof.
  intros [Hnd Hex] H.
  apply process_file_Ok_inv in H.
  destruct H as [(f & _ & -> & -> & _) | (n & Hf & _ & -> & _ & ->)];
    [split; assumption |].
  assert (Hp : local_name_of data_dir yr href ∉ listed st).
  { intros Hin. apply Hex in Hin. rewrite Hf in Hin.
    destruct Hin as [x Hx]. discriminate. }
  assert (Hkeep : forall p, p = local_name_of data_dir yr href \/ p ∈ listed st ->
            is_Some (files (written env (furl_of http_url yr subdir href)
                              (local_name_of data_dir yr href) n w) !! p)).
  { intros p Hin. unfold written. simpl.
    destruct (decide (local_name_of data_dir yr href = p)) as [<- | Hne].
    - rewrite lookup_insert_eq. eauto.
    - rewrite lookup_insert_ne by exact Hne.
      destruct Hin as [-> | Hin]; [contradiction | apply Hex, Hin]. }
  destruct (n <? size); split.
  - apply NoDup_append_error; assumption.
  - intros p Hin. apply Hkeep, listed_append_error, Hin.
  - apply NoDup_append_new; assumption.
  - intros p Hin. apply Hkeep, listed_append_new, Hin.
Qed.

Lemma files_loop_keeps_exclusive subdir rows : forall done st w st' w',
  exclusive st w ->
  files_loop env data_dir yr http_url subdir rows done st w = (Ok st', w') ->
  exclusive st' w'.
Proof.
  induction rows as [|r rest IH]; intros done st w st' w' Hex H.
  - injection H as <- <-. exact Hex.
  - cbn [files_loop] in H. destruct (str_in (href r) done).
    + eapply IH; eassumption.
    + apply bind_inv_Ok in H. destruct H as (sz & w1 & Hsz & H).
      assert (w1 = w) as ->.
      { revert Hsz. unfold from_option. destruct (py_int (size r));
          [intros [= _ <-]; reflexivity | discriminate]. }
      apply bind_inv_Ok in H. destruct H as (st1 & w2 & Hp & H).
      eapply IH; [| exact H].
      eapply process_file_keeps_exclusive; eassumption.
Qed.

Lemma session_get_files {A : Type} (served : string -> option A) url w r w' :
  session_get served url w = (r, w') -> files w' = files w.
Proof.
  unfold session_get. munfold. simpl.
  destruct (served url); intros [= _ <-]; reflexivity.
Qed.

Lemma days_loop_keeps_exclusive days links : forall st w st' w',
  exclusive st w ->
  days_loop env data_dir yr http_url days links st w = (Ok st', w') ->
  exclusive st' w'.
Proof.
  induction links as [|subdir rest IH]; intros st w st' w' Hex H.
  - injection H as <- <-. exact Hex.
  - cbn [days_loop] in H. destruct (skipped days subdir).
    + eapply IH; eassumption.
    + apply bind_inv_Ok in H. destruct H as (rows & w1 & Hg & H).
      apply session_get_files in Hg.
      apply bind_inv_Ok in H. destruct H as (st1 & w2 & Hl & H).
      eapply IH; [| exact H].
      eapply files_loop_keeps_exclusive; [| exact Hl].
      eapply exclusive_same_files; eassumption.
Qed.

(** Over a whole year: no path is listed twice in the summary returned. *)
Lemma download_yr_exclusive days w st w' :
  download_yr env http_url yr data_dir days w = (Ok st, w') ->
  NoDup (listed st).
Proof.
  intros H. unfold download_yr in H.
  apply bind_inv_Ok in H. destruct H as (links & w1 & Hg & H).
  eapply days_loop_keeps_exclusive in H; [apply H |].
  split; [constructor | intros p Hp; inversion Hp].
Qed.

End Exclusive.

(** C7, as stated, fails: an entry whose local file exists and whose
    remote date cannot be read is processed, is not passed over as up to
    date, and yet ends in none of the three lists: [process_file] raises,
    and so does the run, which returns no summary. *)
Lemma unreadable_entry_in_no_list :
  let env := demo_env ["001/contents.html"] [row0 "yesterday-ish"]
               1200 0 (jan1_2020 + hours 48) in
  let w := world_of [(local0, {| mtime := jan1_2020; st_size := 1200 |})] in
  decide_entry env local0 "yesterday-ish" w = (Raise ParserError, w)
  /\ process_file env data_dir0 2020 http_url0 "001/contents.html" href0
       "yesterday-ish" 1000 empty_status w = (Raise ParserError, w)
  /\ fst (download_yr env http_url0 2020 data_dir0 [] w) = Raise ParserError.
Proof. repeat split; vm_compute; reflexivity. Qed.

(** C7, amended: after [process_file] has returned for an entry, the
    three lists of the summary are still exclusive (no path occurs twice
    in [new ++ updated ++ error]).  The summary is unchanged when the
    entry was passed over.  Otherwise the entry was fetched as new: its
    local path, which was in none of the lists, is now in the summary,
    appended to exactly one list, [error] when the file on disk is
    smaller than the expected size and [new] when it is not, the other
    two lists being as they were. *)
Theorem status_lists_exclusive env data_dir yr http_url subdir href last_mod size
    st w st' w' :
  exclusive st w ->
  process_file env data_dir yr http_url subdir href last_mod size st w = (Ok st', w') ->
  exclusive st' w'
  /\ (decide_entry env (local_name_of data_dir yr href) last_mod w = (Ok Skip, w)
      -> st' = st)
  /\ (decide_entry env (local_name_of data_dir yr href) last_mod w <> (Ok Skip, w)
      -> decide_entry env (local_name_of data_dir yr href) last_mod w
         = (Ok FetchNew, w)
         /\ (local_name_of data_dir yr href ∉ listed st)
         /\ (local_name_of data_dir yr href ∈ listed st')
         /\ updated st' = updated st
         /\ exists n,
              (st_size <$> files w' !! local_name_of data_dir yr href) = Some n
              /\ ((n < size
                   /\ error st' = (error st ++ [local_name_of data_dir yr href])%list
                   /\ new st' = new st)
                  \/ (size <= n
                      /\ new st' = (new st ++ [local_name_of data_dir yr href])%list
                      /\ error st' = error st))).
Proof.
  intros Hex H.
  split; [eapply process_file_keeps_exclusive; eassumption |].
  destruct Hex as [_ Hex].
  apply process_file_Ok_inv in H.
  destruct H as [(f & _ & -> & -> & Hd) | (n & Hf & _ & -> & Hd & ->)].
  - split; [reflexivity |]. intros Hne. contradiction.
  - split; [rewrite Hd; discriminate |].
    intros _. split; [exact Hd |]. split.
    { intros Hin. apply Hex in Hin. rewrite Hf in Hin.
      destruct Hin as [x Hx]. discriminate. }
    split.
    { destruct (n <? size);
        [apply listed_append_error | apply listed_append_new]; now left. }
    split; [destruct (n <? size); reflexivity |].
    exists n. split.
    { unfold written. simpl. rewrite lookup_insert_eq. reflexivity. }
    destruct (Z.ltb_spec n size); [left | right]; repeat split; assumption || reflexivity.
Qed.

Lemma status_lists_exclusive_witness :
  exclusive (append_new empty_status local0)
    (written (demo_env ["001/contents.html"] [row0 "2020-01-02T00:00:00Z"]
                1200 0 (jan1_2020 + hours 48)) furl0 local0 1200 (world_of [])).
Proof.
  apply (status_lists_exclusive
           (demo_env ["001/contents.html"] [row0 "2020-01-02T00:00:00Z"]
              1200 0 (jan1_2020 + hours 48))
           data_dir0 2020 http_url0 "001/contents.html" href0
           "2020-01-02T00:00:00Z" 1000 empty_status (world_of [])).
  - split; [constructor | intros p Hp; inversion Hp].
  - vm_compute. reflexivity.
Defined.

(** ** The day range of [main] *)

Lemma py_split_no_slash s : has_slash s = false -> py_split "/" s = [s].
Proof.
  induction s as [|c r IH]; simpl; [reflexivity |].
  destruct (Ascii.eqb c "/"); simpl; [discriminate |].
  intros H. rewrite (IH H). reflexivity.
Qed.

Lemma day_list_world s r w w' : day_list s w = (r, w') -> w' = w.
Proof.
  unfold day_list, py_index. munfold.
  destruct (py_split "/" s) as [|dr0 [|dr1 t]]; simpl;
    try (intros [= _ <-]; reflexivity);
    (destruct (String.eqb dr0 ""); simpl; [intros [= _ <-]; reflexivity |]);
    (destruct (py_int dr0); simpl; [| intros [= _ <-]; reflexivity]);
    try (intros [= _ <-]; reflexivity).
  destruct (py_int dr1); simpl; intros [= _ <-]; reflexivity.
Qed.



Lemma day_list_inv s days w w' :
  day_list s w = (Ok days, w') ->
  days = [] \/ exists a b, range_bounds s = Some (a, b)
                           /\ days = map (fun i => py_zfill 3 (py_str i))
                                         (py_range a (b + 1)).
Proof.
  unfold day_list, range_bounds, py_index. munfold.
  destruct (py_split "/" s) as [|dr0 [|dr1 t]]; simpl; [discriminate | |].
  - destruct (String.eqb dr0 ""); simpl; [intros [= <- _]; now left |].
    destruct (py_int dr0); discriminate.
  - destruct (String.eqb dr0 ""); simpl; [intros [= <- _]; now left |].
    destruct (py_int dr0) as [a|]; simpl; [| discriminate].
    destruct (py_int dr1) as [b|]; simpl; [| discriminate].
    intros [= <- _]. right. exists a, b. split; reflexivity.
Qed.




(** ** The day filter of [download_yr] *)

Lemma digit_char_val a :
  is_digit a = true -> digit_char (digit_val a) = a /\ 0 <= digit_val a <= 9.
Proof.
  intros H.
  destruct a as [[] [] [] [] [] [] [] []]; vm_compute in H; try discriminate H;
    (split; [reflexivity | vm_compute; split; discriminate]).
Qed.

Lemma digit_val_char d : 0 <= d <= 9 -> digit_val (digit_char d) = d.
Proof.
  intros H.
  assert (Hd : d = 0 \/ d = 1 \/ d = 2 \/ d = 3 \/ d = 4 \/ d = 5 \/ d = 6
               \/ d = 7 \/ d = 8 \/ d = 9) by lia.
  repeat (destruct Hd as [-> | Hd]; [reflexivity |]). subst. reflexivity.
Qed.

Lemma py_range_In a b i : In i (py_range a b) <-> a <= i < b.
Proof.
  unfold py_range. rewrite in_map_iff. split.
  - intros (k & <- & Hk). apply in_seq in Hk. lia.
  - intros H. exists (Z.to_nat (i - a)). split; [lia |]. apply in_seq. lia.
Qed.

Lemma zfill3_small i : 0 <= i < 1000 -> py_zfill 3 (py_str i) = three_digits i.
Proof.
  intros H.
  assert (Hall : forallb (fun k => String.eqb (py_zfill 3 (py_str k)) (three_digits k))
                   (py_range 0 1000) = true) by (vm_compute; reflexivity).
  rewrite forallb_forall in Hall.
  apply String.eqb_eq, Hall, py_range_In. exact H.
Qed.

Lemma zfill3_negative i : i < 0 -> exists r, py_zfill 3 (py_str i) = String "-" r.
Proof.
  intros H. unfold py_str. destruct (Z.ltb_spec i 0); [| lia].
  unfold py_zfill. destruct (_ <=? _)%nat; [eauto |]. simpl. eauto.
Qed.

Lemma digits_of_length f : forall n acc,
  (String.length acc <= String.length (digits_of f n acc))%nat.
Proof.
  induction f as [|f IH]; intros n acc; simpl; [lia |].
  destruct (n <? 10); simpl; [lia |].
  specialize (IH (n / 10) (String (digit_char (n mod 10)) acc)). simpl in IH. lia.
Qed.

Lemma zfill3_large i : 1000 <= i -> (4 <= String.length (py_zfill 3 (py_str i)))%nat.
Proof.
  intros H.
  assert (Hlen : (4 <= String.length (py_str i))%nat).
  { unfold py_str. destruct (Z.ltb_spec i 0); [lia |].
    assert (Hlog : 9 <= Z.log2 i).
    { change 9 with (Z.log2 1000). apply Z.log2_le_mono. exact H. }
    destruct (Z.to_nat (Z.log2 i)) as [|[|[|f]]] eqn:Hf; try lia.
    cbn [digits_of].
    destruct (Z.ltb_spec i 10); [lia |].
    destruct (Z.ltb_spec (i / 10) 10) as [Hlt|_].
    { assert (100 <= i / 10) by (apply Z.div_le_lower_bound; lia). lia. }
    destruct (Z.ltb_spec (i / 10 / 10) 10) as [Hlt|_].
    { assert (10 <= i / 10 / 10)
        by (apply Z.div_le_lower_bound; [lia |];
            apply Z.div_le_lower_bound; lia). lia. }
    destruct (_ <? 10); [simpl; lia |].
    match goal with
    | |- (_ <= String.length (digits_of ?f ?n ?acc))%nat =>
        pose proof (digits_of_length f n acc) as Hd; simpl in Hd; lia
    end. }
  unfold py_zfill. destruct (Nat.leb_spec 3 (String.length (py_str i))); [exact Hlen | lia].
Qed.

Lemma three_digits_val a b c :
  is_digit a = true -> is_digit b = true -> is_digit c = true ->
  three_digits (100 * digit_val a + 10 * digit_val b + digit_val c)
  = String a (String b (String c "")).
Proof.
  intros Ha Hb Hc.
  destruct (digit_char_val a Ha) as [Ea Ra].
  destruct (digit_char_val b Hb) as [Eb Rb].
  destruct (digit_char_val c Hc) as [Ec Rc].
  unfold three_digits.
  set (x := digit_val a) in *. set (y := digit_val b) in *. set (z := digit_val c) in *.
  replace ((100 * x + 10 * y + z) / 100) with x
    by (apply Z.div_unique with (r := 10 * y + z); lia).
  replace ((100 * x + 10 * y + z) mod 10) with z
    by (apply Z.mod_unique with (q := 10 * x + y); lia).
  replace ((100 * x + 10 * y + z) / 10) with (10 * x + y)
    by (apply Z.div_unique with (r := z); lia).
  replace ((10 * x + y) mod 10) with y
    by (apply Z.mod_unique with (q := x); lia).
  rewrite Ea, Eb, Ec. reflexivity.
Qed.

Lemma three_digits_inj i a b c :
  0 <= i < 1000 ->
  is_digit a = true -> is_digit b = true -> is_digit c = true ->
  three_digits i = String a (String b (String c "")) ->
  i = 100 * digit_val a + 10 * digit_val b + digit_val c.
Proof.
  intros Hi Ha Hb Hc H. unfold three_digits in H. injection H as H1 H2 H3.
  assert (R1 : 0 <= i / 100 <= 9)
    by (split; [apply Z.div_pos; lia | apply Z.lt_succ_r, Z.div_lt_upper_bound; lia]).
  assert (R2 : 0 <= i / 10 mod 10 <= 9) by (pose proof (Z.mod_pos_bound (i / 10) 10); lia).
  assert (R3 : 0 <= i mod 10 <= 9) by (pose proof (Z.mod_pos_bound i 10); lia).
  rewrite <- H1, <- H2, <- H3. rewrite !digit_val_char by assumption.
  pose proof (Z.div_mod i 10). pose proof (Z.div_mod (i / 10) 10).
  replace (i / 100) with (i / 10 / 10) by (rewrite Z.div_div; [reflexivity | lia | lia]).
  lia.
Qed.

(** A three-digit name is in the list built from a range exactly when
    its number is in the range. *)
Lemma three_digit_name_in_days a b c x y :
  is_digit a = true -> is_digit b = true -> is_digit c = true ->
  str_in (String a (String b (String c "")))
    (map (fun i => py_zfill 3 (py_str i)) (py_range x y)) = true
  <-> x <= 100 * digit_val a + 10 * digit_val b + digit_val c < y.
Proof.
  intros Ha Hb Hc.
  destruct (digit_char_val a Ha) as [_ Ra].
  destruct (digit_char_val b Hb) as [_ Rb].
  destruct (digit_char_val c Hc) as [_ Rc].
  rewrite str_in_In, in_map_iff. split.
  - intros (i & Hz & Hin). apply py_range_In in Hin.
    destruct (Z.lt_ge_cases i 0) as [Hneg | Hpos].
    { destruct (zfill3_negative i Hneg) as [r Hr]. rewrite Hr in Hz.
      injection Hz as <- _. discriminate Ha. }
    destruct (Z.lt_ge_cases i 1000) as [Hsmall | Hbig].
    + rewrite zfill3_small in Hz by lia.
      apply three_digits_inj in Hz; try assumption; lia.
    + pose proof (zfill3_large i Hbig) as Hl. rewrite Hz in Hl. simpl in Hl. lia.
  - intros Hr. exists (100 * digit_val a + 10 * digit_val b + digit_val c).
    split; [| apply py_range_In, Hr].
    rewrite zfill3_small by lia. apply three_digits_val; assumption.
Qed.

Lemma day_number_inv subdir v :
  day_number subdir = Some v ->
  exists a b c, py_take 3 subdir = String a (String b (String c ""))
                /\ is_digit a = true /\ is_digit b = true /\ is_digit c = true
                /\ v = 100 * digit_val a + 10 * digit_val b + digit_val c.
Proof.
  unfold day_number.
  destruct (py_take 3 subdir) as [|a [|b [|c [|d r]]]]; try discriminate.
  destruct (is_digit a) eqn:Ha; [| discriminate].
  destruct (is_digit b) eqn:Hb; [| discriminate].
  destruct (is_digit c) eqn:Hc; [| discriminate].
  simpl. intros [= <-]. exists a, b, c. repeat split; assumption || reflexivity.
Qed.

Lemma starts_with_char a c r :
  starts_with (String a "") (String c r) = Ascii.eqb a c.
Proof.
  change (starts_with (String a "") (String c r))
    with (if Ascii.eqb a c then true else false).
  destruct (Ascii.eqb a c); reflexivity.
Qed.

(** The first field of the split is empty exactly when no range is given. *)
Lemma py_split_head s :
  exists h t, py_split "/" s = h :: t /\ (h = "" <-> no_range s).
Proof.
  unfold no_range. destruct s as [|c r].
  - exists "", []. split; [reflexivity |]. split; auto.
  - rewrite starts_with_char, Ascii.eqb_sym. cbn [py_split].
    destruct (Ascii.eqb c "/").
    + eexists _, _. split; [reflexivity |]. split; auto.
    + destruct (py_split "/" r) as [|h t]; eexists _, _;
        (split; [reflexivity |]);
        (split; [discriminate | intros [H | H]; discriminate H]).
Qed.

Lemma day_list_cases s days w w' :
  day_list s w = (Ok days, w') ->
  (no_range s /\ days = [])
  \/ (~ no_range s
      /\ exists a b, range_bounds s = Some (a, b)
                     /\ days = map (fun i => py_zfill 3 (py_str i))
                                   (py_range a (b + 1))).
Proof.
  destruct (py_split_head s) as (h & t & Hsp & Hiff).
  unfold day_list, range_bounds, py_index. rewrite Hsp. munfold. simpl.
  destruct (String.eqb_spec h "") as [-> | Hne]; simpl.
  - intros [= <- _]. left. split; [apply Hiff; reflexivity | reflexivity].
  - intros H. right. split; [intros Hn; apply Hne, Hiff, Hn |].
    destruct (py_int h) as [a|]; simpl in H; [| discriminate].
    destruct t as [|dr1 t]; simpl in H; [discriminate |].
    destruct (py_int dr1) as [b|]; simpl in H; [| discriminate].
    injection H as <- _. exists a, b. split; reflexivity.
Qed.

(** C8, as stated, fails: with the range [012/010], whose start is after
    its end, the list of days is empty and the folder 009 is processed,
    as every folder is, although a range is given and 9 does not lie
    between 12 and 10. *)
Lemma inverted_range_processes_all :
  day_list "012/010" (world_of []) = (Ok [], world_of [])
  /\ ~ no_range "012/010"
  /\ range_bounds "012/010" = Some (12, 10)
  /\ day_number "009/contents.html" = Some 9
  /\ ~ (12 <= 9 <= 10)
  /\ skipped [] "009/contents.html" = false.
Proof.
  repeat split; try reflexivity; try lia.
  intros [H | H]; discriminate H.
Qed.

(** C8, amended: the filter built by [main] is the list of zero-padded
    day names of an inclusive range, the empty list standing for all
    days: the list is empty when no range is given, and is otherwise
    made of the names of the days from the start to the end of the range.
    A day folder whose name begins with three digits is processed
    ([download_yr] does not pass it over) exactly when no range is given
    (the day range is empty or begins with [/]), or the start of the
    range is after its end, or the number of the folder lies between the
    start and the end of the range, both included. *)
Theorem day_filter_inclusive_range day_range days w w' subdir v :
  day_list day_range w = (Ok days, w') ->
  day_number subdir = Some v ->
  ((no_range day_range /\ days = [])
   \/ (~ no_range day_range
       /\ exists a b, range_bounds day_range = Some (a, b)
                      /\ days = map (fun i => py_zfill 3 (py_str i))
                                    (py_range a (b + 1))))
  /\ (skipped days subdir = false
      <-> no_range day_range
          \/ exists a b, range_bounds day_range = Some (a, b)
                         /\ (b < a \/ a <= v <= b)).
Proof.
  intros Hd Hv. split; [exact (day_list_cases _ _ _ _ Hd) |].
  destruct (day_number_inv _ _ Hv) as (a & b & c & Ht & Ha & Hb & Hc & ->).
  unfold skipped. rewrite Ht.
  destruct (day_list_cases _ _ _ _ Hd) as [[Hn ->] | (Hn & x & y & Hr & ->)].
  - simpl. split; [now left | reflexivity].
  - rewrite andb_false_iff, !negb_false_iff, bool_decide_eq_true.
    rewrite (three_digit_name_in_days a b c x (y + 1) Ha Hb Hc).
    assert (Hempty : map (fun i => py_zfill 3 (py_str i)) (py_range x (y + 1)) = []
                     <-> y < x).
    { unfold py_range. split.
      - intros He. apply map_eq_nil in He. apply map_eq_nil in He.
        destruct (Z.to_nat (y + 1 - x)) eqn:E; [lia | discriminate He].
      - intros Hlt. replace (Z.to_nat (y + 1 - x)) with O by lia. reflexivity. }
    rewrite Hempty. split.
    + intros [Hlt | Hin]; right; exists x, y; (split; [exact Hr |]); [left | right]; lia.
    + intros [Hno | (x' & y' & He & Hin)]; [contradiction |].
      rewrite Hr in He. injection He as <- <-. destruct Hin; [left | right]; lia.
Qed.

Lemma day_filter_inclusive_range_witness :
  skipped ["010"; "011"; "012"] "011/contents.html" = false
  <-> no_range "010/012"
      \/ exists a b, range_bounds "010/012" = Some (a, b)
                     /\ (b < a \/ a <= 11 <= b).
Proof.
  apply (day_filter_inclusive_range "010/012" ["010"; "011"; "012"]
           (world_of []) (world_of []) "011/contents.html" 11).
  - vm_compute. reflexivity.
  - vm_compute. reflexivity.
Defined.

(** The range [010/012] over the folders 009 to 013: the pages fetched
    are the year page and those of 010, 011 and 012. *)
Example scenario_D :
  day_list "010/012" (world_of []) = (Ok ["010"; "011"; "012"], world_of [])
  /\ List.filter (fun d => negb (skipped ["010"; "011"; "012"] d))
       ["009/contents.html"; "010/contents.html"; "011/contents.html";
        "012/contents.html"; "013/contents.html"]
     = ["010/contents.html"; "011/contents.html"; "012/contents.html"]
  /\ trace (snd (download_yr
                   (demo_env ["009/contents.html"; "010/contents.html";
                              "011/contents.html"; "012/contents.html";
                              "013/contents.html"] [] 0 0 0)
                   "u" 2020 "d" ["010"; "011"; "012"] (world_of [])))
     = [EGet "u/2020/contents.html"; EGet "u/2020/010/contents.html";
        EGet "u/2020/011/contents.html"; EGet "u/2020/012/contents.html"].
Proof. repeat split; vm_compute; reflexivity. Qed.

(** ** Running the year twice *)

Lemma remote_instant_inv env s t :
  remote_instant env s = Some t ->
  s <> "" /\ exists r o, dateutil_parse env s = Some {| wall := r; tzinfo := Some o |}
                         /\ t = r - o.
Proof.
  unfold remote_instant. destruct (String.eqb_spec s ""); [discriminate |].
  destruct (dateutil_parse env s) as [[r [o|]]|]; simpl; try discriminate.
  intros [= <-]. split; [assumption |]. exists r, o. split; reflexivity.
Qed.

Section Rerun.
Variable env : Env.
Variables (data_dir : string) (yr : Z) (http_url : string).

Local Abbreviation cur fs r := (current env fs data_dir yr r).






End Rerun.


(** The same on a host five hours behind UTC, for a remote file
    modified one hour before the first run: the file just written is
    read as older than the remote one; the second run removes it and
    raises. *)
Example second_run_west_of_utc :
  let env := demo_env ["001/contents.html"] [row0 "2020-01-02T00:00:00Z"]
               1200 (hours (-5)) (jan1_2020 + hours 25) in
  let run1 := download_yr env http_url0 2020 data_dir0 [] (world_of []) in
  let run2 := download_yr env http_url0 2020 data_dir0 [] (snd run1) in
  fst run1 = Ok {| new := [local0]; updated := []; error := [] |}
  /\ fst run2 = Raise UnboundLocalError
  /\ files (snd run2) = ∅.
Proof. repeat split; vm_compute; reflexivity. Qed.

(** * Further properties of the code *)

(** ** Every outcome of [process_file] *)

Lemma process_file_outcome env data_dir yr http_url subdir href last_mod size st w r w' :
  process_file env data_dir yr http_url subdir href last_mod size st w = (r, w') ->
  (files w !! local_name_of data_dir yr href = None
   /\ ((exists n, body_size env (furl_of http_url yr subdir href) = Some n
                  /\ r = Ok (if n <? size
                             then append_error st (local_name_of data_dir yr href)
                             else append_new st (local_name_of data_dir yr href))
                  /\ w' = written env (furl_of http_url yr subdir href)
                            (local_name_of data_dir yr href) n w)
       \/ (body_size env (furl_of http_url yr subdir href) = None
           /\ r = Raise ConnectionError
           /\ w' = {| files := files w; ticks := ticks w;
                      trace := trace w ++ [EGet (furl_of http_url yr subdir href)] |})))
  \/ (is_Some (files w !! local_name_of data_dir yr href)
      /\ ((w' = w /\ (r = Ok st \/ exists e, r = Raise e))
          \/ (r = Raise UnboundLocalError
              /\ w' = {| files := delete (local_name_of data_dir yr href) (files w);
                         ticks := ticks w;
                         trace := trace w ++ [ERemove (local_name_of data_dir yr href)] |}))).
Proof.
  intros H.
  destruct (files w !! local_name_of data_dir yr href) as [f|] eqn:Hf.
  - right. split; [eauto |].
    rewrite process_file_decide, bind_unfold,
      (decide_entry_present _ _ _ _ _ Hf), bind_unfold in H.
    destruct (check_mdt _ _ _ _ _) as [[[]|e] w1] eqn:Hc;
      apply check_mdt_world in Hc; subst w1.
    + right. revert H. unfold act. munfold. rewrite Hf.
      intros [= <- <-]. split; reflexivity.
    + left. revert H. unfold act. munfold. intros [= <- <-]. auto.
    + left. injection H as <- <-. eauto.
  - left. split; [reflexivity |].
    destruct (body_size env (furl_of http_url yr subdir href)) as [n|] eqn:Hb.
    + left. exists n. rewrite (process_file_new _ _ _ _ _ _ _ _ _ _ _ Hf Hb) in H.
      injection H as <- <-. auto.
    + right. rewrite (process_file_unreachable _ _ _ _ _ _ _ _ _ _ Hf Hb) in H.
      injection H as <- <-. auto.
Qed.

(** ** Local files are kept *)

Lemma kept_refl w : kept w w.
Proof. intros p f H. exact H. Qed.

Lemma kept_trans w1 w2 w3 : kept w1 w2 -> kept w2 w3 -> kept w1 w3.
Proof. intros H12 H23 p f H. apply H23, H12, H. Qed.

Lemma kept_same_files w w' : files w' = files w -> kept w w'.
Proof. intros He p f H. rewrite He. exact H. Qed.

Lemma kept_written env url p n w :
  files w !! p = None -> kept w (written env url p n w).
Proof.
  intros Hn q f Hq. unfold written. simpl.
  rewrite lookup_insert_ne; [exact Hq |]. intros ->. congruence.
Qed.

Section Kept.
Variable env : Env.
Variables (data_dir : string) (yr : Z) (http_url : string).

Lemma process_file_kept subdir href last_mod size st w r w' :
  process_file env data_dir yr http_url subdir href last_mod size st w = (r, w') ->
  kept w w' \/ r = Raise UnboundLocalError.
Proof.
  intros H. apply process_file_outcome in H.
  destruct H as [(Hf & [(n & _ & _ & ->) | (_ & _ & ->)])
                | (_ & [(-> & _) | (-> & _)])].
  - left. apply kept_written, Hf.
  - left. apply kept_same_files. reflexivity.
  - left. apply kept_refl.
  - now right.
Qed.

Lemma files_loop_kept subdir rows : forall done st w r w',
  files_loop env data_dir yr http_url subdir rows done st w = (r, w') ->
  kept w w' \/ r = Raise UnboundLocalError.
Proof.
  induction rows as [|x rest IH]; intros done st w r w' H.
  - injection H as <- <-. left. apply kept_refl.
  - cbn [files_loop] in H. destruct (str_in (href x) done); [eapply IH, H |].
    rewrite bind_unfold in H. unfold from_option in H.
    destruct (py_int (size x)) as [sz|]; cbn [ret mret M_ret raise] in H.
    + rewrite bind_unfold in H.
      destruct (process_file _ _ _ _ _ _ _ _ _ _) as [[st1|e] w1] eqn:Hp;
        apply process_file_kept in Hp.
      * destruct Hp as [Hk | Hk]; [| discriminate Hk].
        apply IH in H. destruct H as [Hk' | ->]; [left | now right].
        eapply kept_trans; eassumption.
      * injection H as <- <-. exact Hp.
    + injection H as <- <-. left. apply kept_refl.
Qed.

Lemma days_loop_kept days links : forall st w r w',
  days_loop env data_dir yr http_url days links st w = (r, w') ->
  kept w w' \/ r = Raise UnboundLocalError.
Proof.
  induction links as [|subdir rest IH]; intros st w r w' H.
  - injection H as <- <-. left. apply kept_refl.
  - cbn [days_loop] in H. destruct (skipped days subdir); [eapply IH, H |].
    rewrite bind_unfold in H.
    destruct (session_get _ _ _) as [[rows|e] w0] eqn:Hg;
      apply session_get_files in Hg.
    + rewrite bind_unfold in H.
      destruct (files_loop _ _ _ _ _ _ _ _ _) as [[st1|e] w1] eqn:Hl;
        apply files_loop_kept in Hl.
      * destruct Hl as [Hk | Hk]; [| discriminate Hk].
        apply IH in H. destruct H as [Hk' | ->]; [left | now right].
        eapply kept_trans; [apply kept_same_files, Hg |].
        eapply kept_trans; eassumption.
      * injection H as <- <-. destruct Hl as [Hk | ->]; [left | now right].
        eapply kept_trans; [apply kept_same_files, Hg | exact Hk].
    + injection H as <- <-. left. apply kept_same_files, Hg.
Qed.

Lemma process_file_updated subdir href last_mod size st w st' w' :
  process_file env data_dir yr http_url subdir href last_mod size st w = (Ok st', w') ->
  updated st' = updated st.
Proof.
  intros H. apply process_file_Ok_inv in H.
  destruct H as [(_ & _ & -> & _) | (n & _ & _ & _ & _ & ->)]; [reflexivity |].
  destruct (n <? size); reflexivity.
Qed.

Lemma files_loop_updated subdir rows : forall done st w st' w',
  files_loop env data_dir yr http_url subdir rows done st w = (Ok st', w') ->
  updated st' = updated st.
Proof.
  induction rows as [|x rest IH]; intros done st w st' w' H.
  - injection H as <- <-. reflexivity.
  - cbn [files_loop] in H. destruct (str_in (href x) done); [eapply IH, H |].
    apply bind_inv_Ok in H. destruct H as (sz & w0 & _ & H).
    apply bind_inv_Ok in H. destruct H as (st1 & w1 & Hp & H).
    apply IH in H. apply process_file_updated in Hp. congruence.
Qed.

Lemma days_loop_updated days links : forall st w st' w',
  days_loop env data_dir yr http_url days links st w = (Ok st', w') ->
  updated st' = updated st.
Proof.
  induction links as [|subdir rest IH]; intros st w st' w' H.
  - injection H as <- <-. reflexivity.
  - cbn [days_loop] in H. destruct (skipped days subdir); [eapply IH, H |].
    apply bind_inv_Ok in H. destruct H as (rows & w0 & _ & H).
    apply bind_inv_Ok in H. destruct H as (st1 & w1 & Hl & H).
    apply IH in H. apply files_loop_updated in Hl. congruence.
Qed.

End Kept.

(** X1: no summary returned by [download_yr] ever lists an updated file:
    the only branch that appends to [updated] raises before it gets
    there. *)
Theorem download_yr_never_updates env http_url yr data_dir days w st w' :
  download_yr env http_url yr data_dir days w = (Ok st, w') ->
  updated st = [].
Proof.
  intros H. unfold download_yr in H.
  apply bind_inv_Ok in H. destruct H as (links & w0 & _ & H).
  apply days_loop_updated in H. exact H.
Qed.

Lemma download_yr_never_updates_witness :
  updated (append_new empty_status local0) = [].
Proof.
  apply (download_yr_never_updates env0 http_url0 2020 data_dir0 [] (world_of [])
           (append_new empty_status local0) world1).
  vm_compute. reflexivity.
Defined.

(** X2: unless it ends on the UnboundLocalError of the update branch,
    a run of [download_yr], completed or aborted, leaves every local file
    that was there before as it was: same modification time, same size. *)
Theorem download_yr_keeps_files env http_url yr data_dir days w r w' :
  download_yr env http_url yr data_dir days w = (r, w') ->
  r <> Raise UnboundLocalError ->
  forall p f, files w !! p = Some f -> files w' !! p = Some f.
Proof.
  intros H Hr. unfold download_yr in H. rewrite bind_unfold in H.
  destruct (session_get _ _ _) as [[links|e] w0] eqn:Hg;
    apply session_get_files in Hg.
  - apply days_loop_kept in H. destruct H as [Hk | ->]; [| contradiction].
    intros p f Hp. apply Hk. rewrite Hg. exact Hp.
  - injection H as _ <-. intros p f Hp. rewrite Hg. exact Hp.
Qed.

Lemma download_yr_keeps_files_witness :
  files {| files := files world1; ticks := ticks world1;
           trace := trace world1
                    ++ [EGet (http_url0 +:+ "/" +:+ py_str 2020 +:+ "/contents.html");
                        EGet (http_url0 +:+ "/" +:+ py_str 2020 +:+ "/"
                              +:+ "001/contents.html")] |}
    !! local_name_of data_dir0 2020 href0
  = Some {| mtime := jan1_2020 + hours 48; st_size := 1200 |}.
Proof.
  apply (download_yr_keeps_files env0 http_url0 2020 data_dir0 [] world1
           (Ok empty_status)
           {| files := files world1; ticks := ticks world1;
              trace := trace world1
                       ++ [EGet (http_url0 +:+ "/" +:+ py_str 2020 +:+ "/contents.html");
                           EGet (http_url0 +:+ "/" +:+ py_str 2020 +:+ "/"
                                 +:+ "001/contents.html")] |}).
  - vm_compute. reflexivity.
  - discriminate.
  - vm_compute. reflexivity.
Defined.

(** ** The summary lists the files created *)

Lemma accounts_same_files w0 st w w' :
  files w' = files w -> accounts w0 st w -> accounts w0 st w'.
Proof.
  intros He [Hk Hl]. split.
  - intros p f Hp. rewrite He. apply Hk, Hp.
  - intros p. rewrite He. apply Hl.
Qed.

Section Accounts.
Variable env : Env.
Variables (data_dir : string) (yr : Z) (http_url : string).
Variable w0 : World.

Lemma process_file_accounts subdir href last_mod size st w st' w' :
  accounts w0 st w ->
  process_file env data_dir yr http_url subdir href last_mod size st w = (Ok st', w') ->
  accounts w0 st' w'.
Proof.
  intros [Hk Hl] H. apply process_file_Ok_inv in H.
  destruct H as [(_ & _ & -> & -> & _) | (n & Hf & _ & -> & _ & ->)];
    [split; assumption |].
  assert (H0 : files w0 !! local_name_of data_dir yr href = None).
  { destruct (files w0 !! local_name_of data_dir yr href) as [f|] eqn:E;
      [| reflexivity].
    apply Hk in E. congruence. }
  split.
  - eapply kept_trans; [exact Hk | apply kept_written, Hf].
  - intros p.
    assert (Hin : p ∈ listed (if n <? size
                              then append_error st (local_name_of data_dir yr href)
                              else append_new st (local_name_of data_dir yr href))
                  <-> p = local_name_of data_dir yr href \/ p ∈ listed st).
    { destruct (n <? size); [apply listed_append_error | apply listed_append_new]. }
    rewrite Hin, Hl. unfold written. simpl.
    destruct (decide (local_name_of data_dir yr href = p)) as [<- | Hne].
    + rewrite lookup_insert_eq. split; [intros _ | intros _; now left].
      split; [exact H0 | eauto].
    + rewrite lookup_insert_ne by exact Hne. split.
      * intros [-> | H]; [contradiction | exact H].
      * intros H. now right.
Qed.

Lemma files_loop_accounts subdir rows : forall done st w st' w',
  accounts w0 st w ->
  files_loop env data_dir yr http_url subdir rows done st w = (Ok st', w') ->
  accounts w0 st' w'.
Proof.
  induction rows as [|x rest IH]; intros done st w st' w' Ha H.
  - injection H as <- <-. exact Ha.
  - cbn [files_loop] in H. destruct (str_in (href x) done); [eapply IH; eassumption |].
    apply bind_inv_Ok in H. destruct H as (sz & w1 & Hsz & H).
    assert (w1 = w) as ->.
    { revert Hsz. unfold from_option. destruct (py_int (size x));
        [intros [= _ <-]; reflexivity | discriminate]. }
    apply bind_inv_Ok in H. destruct H as (st1 & w2 & Hp & H).
    eapply IH; [| exact H]. eapply process_file_accounts; eassumption.
Qed.

Lemma days_loop_accounts days links : forall st w st' w',
  accounts w0 st w ->
  days_loop env data_dir yr http_url days links st w = (Ok st', w') ->
  accounts w0 st' w'.
Proof.
  induction links as [|subdir rest IH]; intros st w st' w' Ha H.
  - injection H as <- <-. exact Ha.
  - cbn [days_loop] in H. destruct (skipped days subdir); [eapply IH; eassumption |].
    apply bind_inv_Ok in H. destruct H as (rows & w1 & Hg & H).
    apply session_get_files in Hg.
    apply bind_inv_Ok in H. destruct H as (st1 & w2 & Hl & H).
    eapply IH; [| exact H]. eapply files_loop_accounts; [| exact Hl].
    eapply accounts_same_files; eassumption.
Qed.

End Accounts.

(** X3: when [download_yr] returns its summary, the paths listed in it
    ([new], [updated] and [error] together) are exactly the files that did
    not exist before the run and exist after it, each listed once. *)
Theorem download_yr_lists_created_files env http_url yr data_dir days w st w' :
  download_yr env http_url yr data_dir days w = (Ok st, w') ->
  NoDup (listed st)
  /\ forall p, p ∈ listed st <-> files w !! p = None /\ is_Some (files w' !! p).
Proof.
  intros H. split; [eapply download_yr_exclusive, H |].
  unfold download_yr in H.
  apply bind_inv_Ok in H. destruct H as (links & w1 & Hg & H).
  apply session_get_files in Hg.
  apply (days_loop_accounts env data_dir yr http_url w) in H; [apply H |].
  split; [apply kept_same_files, Hg |].
  intros p. rewrite Hg. split.
  - intros Hp. inversion Hp.
  - intros [Hn [f Hs]]. congruence.
Qed.

Lemma download_yr_lists_created_files_witness :
  NoDup (listed (append_new empty_status local0))
  /\ forall p, p ∈ listed (append_new empty_status local0)
               <-> files (world_of []) !! p = None /\ is_Some (files world1 !! p).
Proof.
  apply (download_yr_lists_created_files env0 http_url0 2020 data_dir0 []
           (world_of []) (append_new empty_status local0) world1).
  vm_compute. reflexivity.
Defined.

(** X4: a file that exists locally is never fetched.  Whatever
    [process_file] answers for its entry, no request is sent and nothing is
    written: either the world is untouched, or the file has been removed
    and the call has raised UnboundLocalError.  When the call returns, the
    summary and the world are unchanged. *)
Theorem existing_file_never_fetched env data_dir yr http_url subdir href last_mod
    size st w f r w' :
  files w !! local_name_of data_dir yr href = Some f ->
  process_file env data_dir yr http_url subdir href last_mod size st w = (r, w') ->
  (w' = w
   \/ (r = Raise UnboundLocalError
       /\ files w' = delete (local_name_of data_dir yr href) (files w)
       /\ trace w' = (trace w ++ [ERemove (local_name_of data_dir yr href)])%list))
  /\ gets (trace w') = gets (trace w)
  /\ (forall st', r = Ok st' -> st' = st /\ w' = w).
Proof.
  intros Hf H. apply process_file_outcome in H.
  destruct H as [(Hn & _) | (_ & [(-> & Hr) | (-> & ->)])]; [congruence | |].
  - split; [now left |]. split; [reflexivity |].
    intros st' ->. destruct Hr as [[= <-] | (e & He)]; [auto | discriminate].
  - split; [right; auto |]. split; [| intros st' [=]].
    simpl. clear. induction (trace w) as [|[] t IH]; simpl; congruence.
Qed.

Lemma existing_file_never_fetched_witness :
  (world1 = world1
   \/ (Ok empty_status = Raise UnboundLocalError
       /\ files world1 = delete (local_name_of data_dir0 2020 href0) (files world1)
       /\ trace world1
          = (trace world1 ++ [ERemove (local_name_of data_dir0 2020 href0)])%list))
  /\ gets (trace world1) = gets (trace world1)
  /\ (forall st', Ok empty_status = Ok st' -> st' = empty_status /\ world1 = world1).
Proof.
  apply (existing_file_never_fetched env0 data_dir0 2020 http_url0
           "001/contents.html" href0 "2020-01-02T00:00:00Z" 1000 empty_status
           world1 {| mtime := jan1_2020 + hours 48; st_size := 1200 |}).
  - vm_compute. reflexivity.
  - vm_compute. reflexivity.
Defined.

(** X5: a download that arrives shorter than expected is reported once
    and never repaired.  The entry goes to [error] and the short file
    stays; when the remote date is readable and not later than the stamp
    of the file just written, every later call for the same entry passes
    it over as up to date. *)
Theorem truncated_download_never_repaired env data_dir yr http_url subdir href
    last_mod size st w n t :
  files w !! local_name_of data_dir yr href = None ->
  body_size env (furl_of http_url yr subdir href) = Some n ->
  n < size ->
  remote_instant env last_mod = Some t ->
  t <= clock env (ticks w) + utcoffset env (clock env (ticks w)) ->
  exists w1,
    process_file env data_dir yr http_url subdir href last_mod size st w
    = (Ok (append_error st (local_name_of data_dir yr href)), w1)
    /\ (st_size <$> files w1 !! local_name_of data_dir yr href) = Some n
    /\ forall st2,
         process_file env data_dir yr http_url subdir href last_mod size st2 w1
         = (Ok st2, w1).
Proof.
  intros Hf Hb Hlt Ht Hle.
  rewrite (process_file_new _ _ _ _ _ _ _ _ _ _ _ Hf Hb).
  destruct (Z.ltb_spec n size); [| lia].
  eexists. split; [reflexivity |].
  assert (Hw : files (written env (furl_of http_url yr subdir href)
                        (local_name_of data_dir yr href) n w)
               !! local_name_of data_dir yr href
               = Some {| mtime := clock env (ticks w); st_size := n |}).
  { unfold written. simpl. apply lookup_insert_eq. }
  split; [rewrite Hw; reflexivity |].
  intros st2.
  destruct (remote_instant_inv _ _ _ Ht) as (Hs & rw & o & Hp & ->).
  eapply process_file_current; [exact Hw | exact Hs | exact Hp | exact Hle].
Qed.

Lemma truncated_download_never_repaired_witness :
  exists w1,
    process_file (demo_env ["001/contents.html"] [row0 "2020-01-02T00:00:00Z"]
                    400 0 (jan1_2020 + hours 48))
      data_dir0 2020 http_url0 "001/contents.html" href0 "2020-01-02T00:00:00Z"
      1000 empty_status (world_of [])
    = (Ok (append_error empty_status (local_name_of data_dir0 2020 href0)), w1)
    /\ (st_size <$> files w1 !! local_name_of data_dir0 2020 href0) = Some 400
    /\ forall st2,
         process_file (demo_env ["001/contents.html"] [row0 "2020-01-02T00:00:00Z"]
                         400 0 (jan1_2020 + hours 48))
           data_dir0 2020 http_url0 "001/contents.html" href0
           "2020-01-02T00:00:00Z" 1000 st2 w1
         = (Ok st2, w1).
Proof.
  apply (truncated_download_never_repaired
           (demo_env ["001/contents.html"] [row0 "2020-01-02T00:00:00Z"]
              400 0 (jan1_2020 + hours 48))
           data_dir0 2020 http_url0 "001/contents.html" href0
           "2020-01-02T00:00:00Z" 1000 empty_status (world_of []) 400
           (jan1_2020 + hours 24)).
  - vm_compute. reflexivity.
  - reflexivity.
  - lia.
  - vm_compute. reflexivity.
  - vm_compute. discriminate.
Defined.

(** ** Dates that [check_mdt] cannot compare *)

(** X6: a remote date that parses without a time zone cannot be compared
    with the local one, which is made aware: for an entry whose local file
    exists, [process_file] raises TypeError and leaves the world as it
    was. *)
Theorem naive_remote_date_raises env data_dir yr http_url subdir href last_mod
    size st w f d :
  files w !! local_name_of data_dir yr href = Some f ->
  last_mod <> "" ->
  dateutil_parse env last_mod = Some d ->
  tzinfo d = None ->
  process_file env data_dir yr http_url subdir href last_mod size st w
  = (Raise TypeError, w).
Proof.
  intros Hf Hs Hp Hd. destruct d as [r tz]. simpl in Hd. subst tz.
  rewrite process_file_decide, bind_unfold, (decide_entry_present _ _ _ _ _ Hf),
    bind_unfold, (check_mdt_naive _ _ _ _ _ _ Hs Hf Hp).
  reflexivity.
Qed.

Lemma naive_remote_date_raises_witness :
  process_file env0 data_dir0 2020 http_url0 "001/contents.html" href0
    "2020-01-02T00:00:00" 1000 empty_status world1
  = (Raise TypeError, world1).
Proof.
  apply (naive_remote_date_raises env0 data_dir0 2020 http_url0
           "001/contents.html" href0 "2020-01-02T00:00:00" 1000 empty_status
           world1 {| mtime := jan1_2020 + hours 48; st_size := 1200 |}
           {| wall := jan1_2020 + hours 24; tzinfo := None |}).
  - vm_compute. reflexivity.
  - discriminate.
  - vm_compute. reflexivity.
  - reflexivity.
Defined.

(** X7: [check_mdt] reads the remote date before it looks at the local
    file: for a path that does not exist it raises ParserError when the
    date is unreadable and FileNotFoundError only when the date parses;
    in both cases the world is untouched. *)
Theorem check_mdt_missing_file env p s w :
  files w !! p = None ->
  s <> "" ->
  check_mdt env p s None w
  = (Raise (match dateutil_parse env s with
            | Some _ => FileNotFoundError
            | None => ParserError
            end), w).
Proof.
  intros Hf Hs. unfold check_mdt.
  apply String.eqb_neq in Hs. rewrite Hs. munfold.
  destruct (dateutil_parse env s); [rewrite Hf |]; reflexivity.
Qed.

Lemma check_mdt_missing_file_witness :
  check_mdt env0 "nowhere" "2020-01-02T00:00:00Z" None (world_of [])
  = (Raise (match dateutil_parse env0 "2020-01-02T00:00:00Z" with
            | Some _ => FileNotFoundError
            | None => ParserError
            end), world_of []).
Proof.
  apply (check_mdt_missing_file env0 "nowhere" "2020-01-02T00:00:00Z" (world_of [])).
  - reflexivity.
  - discriminate.
Defined.



(** ** The loop over the day folders *)


(** X10: when the day filter passes over every folder of the year page,
    [download_yr] requests the year page and nothing else, touches no
    file and returns the empty summary. *)
Theorem download_yr_all_skipped env http_url yr data_dir days links w :
  day_links env (http_url +:+ "/" +:+ py_str yr +:+ "/contents.html") = Some links ->
  (forall l, In l links -> skipped days l = true) ->
  download_yr env http_url yr data_dir days w
  = (Ok empty_status,
     {| files := files w; ticks := ticks w;
        trace := trace w ++ [EGet (http_url +:+ "/" +:+ py_str yr
                                   +:+ "/contents.html")] |}).
Proof.
  intros Hl Hall. unfold download_yr.
  assert (Hg : session_get (day_links env)
                 (http_url +:+ "/" +:+ py_str yr +:+ "/contents.html") w
               = (Ok links,
                  {| files := files w; ticks := ticks w;
                     trace := trace w ++ [EGet (http_url +:+ "/" +:+ py_str yr
                                                +:+ "/contents.html")] |})).
  { unfold session_get. munfold. simpl. rewrite Hl. reflexivity. }
  rewrite (bind_Ok _ _ _ _ _ Hg). clear Hg Hl.
  generalize {| files := files w; ticks := ticks w;
                trace := trace w ++ [EGet (http_url +:+ "/" +:+ py_str yr
                                           +:+ "/contents.html")] |}.
  induction links as [|l rest IH]; intros w1; [reflexivity |].
  cbn [days_loop]. rewrite (Hall l (or_introl eq_refl)).
  apply IH. intros l' Hl'. apply Hall. now right.
Qed.

Lemma download_yr_all_skipped_witness :
  download_yr (demo_env ["009/contents.html"; "013/contents.html"] [] 0 0 0)
    "u" 2020 "d" ["010"; "011"; "012"] (world_of [])
  = (Ok empty_status,
     {| files := files (world_of []); ticks := ticks (world_of []);
        trace := trace (world_of [])
                 ++ [EGet ("u" +:+ "/" +:+ py_str 2020 +:+ "/contents.html")] |}).
Proof.
  apply (download_yr_all_skipped
           (demo_env ["009/contents.html"; "013/contents.html"] [] 0 0 0)
           "u" 2020 "d" ["010"; "011"; "012"]
           ["009/contents.html"; "013/contents.html"] (world_of [])).
  - reflexivity.
  - intros l [<- | [<- | []]]; vm_compute; reflexivity.
Defined.

(** X12: a range whose start is after its end gives the empty list of
    days, which is the list that stands for all days: no folder is passed
    over. *)
Theorem inverted_range_selects_all_days day_range a b w :
  range_bounds day_range = Some (a, b) ->
  b < a ->
  day_list day_range w = (Ok [], w)
  /\ forall subdir, skipped [] subdir = false.
Proof.
  intros Hr Hlt. split; [| reflexivity].
  unfold range_bounds in Hr. unfold day_list, py_index. munfold.
  destruct (py_split "/" day_range) as [|dr0 [|dr1 t]]; try discriminate.
  simpl.
  destruct (py_int dr0) as [x|] eqn:H0; [| discriminate].
  destruct (py_int dr1) as [y|] eqn:H1; [| discriminate].
  injection Hr as -> ->.
  destruct (String.eqb_spec dr0 "") as [-> | _]; [discriminate H0 |].
  cbn [negb]. unfold py_range. replace (Z.to_nat (b + 1 - a)) with O by lia.
  reflexivity.
Qed.

Lemma inverted_range_selects_all_days_witness :
  day_list "012/010" (world_of []) = (Ok [], world_of [])
  /\ forall subdir, skipped [] subdir = false.
Proof.
  apply (inverted_range_selects_all_days "012/010" 12 10 (world_of [])).
  - reflexivity.
  - lia.
Defined.

(** ** Day ranges written with three digits *)

Lemma py_split_first s1 s2 :
  has_slash s1 = false ->
  py_split "/" (s1 +:+ String "/" s2) = s1 :: py_split "/" s2.
Proof.
  induction s1 as [|c r IH]; simpl; [reflexivity |].
  destruct (Ascii.eqb c "/"); simpl; [discriminate |].
  intros H. rewrite (IH H). reflexivity.
Qed.

Lemma three_digits_read i :
  0 <= i < 1000 ->
  py_int (three_digits i) = Some i /\ has_slash (three_digits i) = false
  /\ three_digits i <> "".
Proof.
  intros H.
  assert (Hall : forallb (fun k => match py_int (three_digits k) with
                                   | Some v => (v =? k) && negb (has_slash (three_digits k))
                                   | None => false
                                   end) (py_range 0 1000) = true)
    by (vm_compute; reflexivity).
  rewrite forallb_forall in Hall.
  specialize (Hall i (proj2 (py_range_In 0 1000 i) H)).
  destruct (py_int (three_digits i)) as [v|]; [| discriminate].
  apply andb_true_iff in Hall. destruct Hall as [Hv Hs].
  apply Z.eqb_eq in Hv. apply negb_true_iff in Hs. subst v.
  repeat split; [exact Hs | discriminate].
Qed.

(** X13: a range written as two three-digit day numbers, first not after
    last, gives back exactly the three-digit names of the days from the
    first to the last, both included, in increasing order. *)
Theorem day_list_three_digit_range a b w :
  0 <= a -> a <= b -> b < 1000 ->
  day_list (three_digits a +:+ "/" +:+ three_digits b) w
  = (Ok (map three_digits (py_range a (b + 1))), w).
Proof.
  intros Ha Hab Hb.
  destruct (three_digits_read a) as (Hia & Hsa & Hna); [lia |].
  destruct (three_digits_read b) as (Hib & Hsb & _); [lia |].
  unfold day_list. change ("/" +:+ three_digits b) with (String "/" (three_digits b)).
  rewrite (py_split_first _ _ Hsa), (py_split_no_slash _ Hsb).
  unfold py_index. munfold. simpl.
  rewrite Hia. cbv beta iota. rewrite Hib. cbv beta iota. f_equal. f_equal.
  apply map_ext_in. intros i Hi. apply py_range_In in Hi.
  apply zfill3_small. lia.
Qed.

Lemma day_list_three_digit_range_witness :
  day_list (three_digits 10 +:+ "/" +:+ three_digits 12) (world_of [])
  = (Ok (map three_digits (py_range 10 (12 + 1))), world_of []).
Proof.
  apply (day_list_three_digit_range 10 12 (world_of [])); lia.
Defined.

(** ** [get_credentials] *)

Lemma one_line_cons c r :
  one_line (String c r) = true ->
  Ascii.eqb c LF = false /\ Ascii.eqb c CR = false /\ one_line r = true.
Proof.
  simpl. rewrite !andb_true_iff, !negb_true_iff. tauto.
Qed.

Lemma readlines_lf u r :
  one_line u = true ->
  py_readlines (u +:+ String LF r) = (u +:+ String LF "") :: py_readlines r.
Proof.
  induction u as [|c u IH]; intros H; [reflexivity |].
  apply one_line_cons in H. destruct H as (Hl & Hc & Hu).
  simpl. rewrite Hl, Hc, (IH Hu). reflexivity.
Qed.

Lemma readlines_crlf u r :
  one_line u = true ->
  py_readlines (u +:+ String CR (String LF r))
  = (u +:+ String LF "") :: py_readlines r.
Proof.
  induction u as [|c u IH]; intros H; [reflexivity |].
  apply one_line_cons in H. destruct H as (Hl & Hc & Hu).
  simpl. rewrite Hl, Hc, (IH Hu). reflexivity.
Qed.

Lemma readlines_one_line u :
  one_line u = true ->
  py_readlines u = match u with EmptyString => [] | _ => [u] end.
Proof.
  induction u as [|c u IH]; intros H; [reflexivity |].
  apply one_line_cons in H. destruct H as (Hl & Hc & Hu).
  simpl. rewrite Hl, Hc, (IH Hu). destruct u; reflexivity.
Qed.

Lemma replace_char_cons a new c r :
  replace_from (String a "") new O (String c r)
  = if Ascii.eqb a c then new +:+ replace_from (String a "") new O r
    else String c (replace_from (String a "") new O r).
Proof.
  change (replace_from (String a "") new O (String c r))
    with (if (if Ascii.eqb a c then true else false)
          then new +:+ replace_from (String a "") new O r
          else String c (replace_from (String a "") new O r)).
  destruct (Ascii.eqb a c); reflexivity.
Qed.

Lemma strip_line_end u :
  one_line u = true ->
  py_replace (u +:+ String LF "") (String LF "") "" = u
  /\ py_replace u (String LF "") "" = u.
Proof.
  unfold py_replace. induction u as [|c u IH]; intros H.
  - split; [| reflexivity].
    change ("" +:+ String LF "") with (String LF "").
    rewrite replace_char_cons, Ascii.eqb_refl. reflexivity.
  - apply one_line_cons in H. destruct H as (Hl & _ & Hu).
    destruct (IH Hu) as [IH1 IH2].
    change (String c u +:+ String LF "") with (String c (u +:+ String LF "")).
    rewrite !replace_char_cons. rewrite Ascii.eqb_sym in Hl.
    rewrite Hl, IH1, IH2. split; reflexivity.
Qed.

(** X14: a credentials file made of the user name on the first line and
    the password on the second, whatever follows, is read back as that
    pair, whether the lines end in LF or in CR LF, and also when the
    password, not empty, is the last thing in the file. *)
Theorem get_credentials_reads_pair u p rest :
  one_line u = true ->
  one_line p = true ->
  get_credentials (Some (u +:+ String LF (p +:+ String LF rest))) false
  = Ok (UserPass u p)
  /\ get_credentials
       (Some (u +:+ String CR (String LF (p +:+ String CR (String LF rest))))) false
     = Ok (UserPass u p)
  /\ (p <> "" ->
      get_credentials (Some (u +:+ String LF p)) false = Ok (UserPass u p)).
Proof.
  intros Hu Hp.
  destruct (strip_line_end u Hu) as [Su _].
  destruct (strip_line_end p Hp) as [Sp Sp'].
  unfold get_credentials, read_line. repeat split.
  - rewrite (readlines_lf _ _ Hu), (readlines_lf _ _ Hp). simpl.
    rewrite Su, Sp. reflexivity.
  - rewrite (readlines_crlf _ _ Hu), (readlines_crlf _ _ Hp). simpl.
    rewrite Su, Sp. reflexivity.
  - intros Hne. rewrite (readlines_lf _ _ Hu), (readlines_one_line _ Hp).
    destruct p as [|c p']; [contradiction |]. simpl lookup.
    cbv beta iota. rewrite Su, Sp'. reflexivity.
Qed.

Lemma get_credentials_reads_pair_witness :
  get_credentials (Some ("alice" +:+ String LF ("s3cret" +:+ String LF ""))) false
  = Ok (UserPass "alice" "s3cret")
  /\ get_credentials
       (Some ("alice" +:+ String CR (String LF ("s3cret" +:+ String CR (String LF "")))))
       false
     = Ok (UserPass "alice" "s3cret")
  /\ ("s3cret" <> "" ->
      get_credentials (Some ("alice" +:+ String LF "s3cret")) false
      = Ok (UserPass "alice" "s3cret")).
Proof.
  apply (get_credentials_reads_pair "alice" "s3cret" ""); reflexivity.
Defined.

(** X15: asked for a token, [get_credentials] returns the flag it was
    called with and not what the file holds: for every non-empty file the
    answer is the tuple [(True,)], whatever the text. *)
Theorem get_credentials_token_is_flag text :
  text <> "" ->
  get_credentials (Some text) true = Ok (Token true).
Proof.
  intros Hne. unfold get_credentials, read_line.
  assert (H : exists l ls, py_readlines text = l :: ls).
  { destruct text as [|c r]; [contradiction |]. cbn [py_readlines].
    destruct (Ascii.eqb c LF); [eauto |].
    destruct (Ascii.eqb c CR).
    - destruct r as [|d r']; [eauto |]. destruct (Ascii.eqb d LF); eauto.
    - destruct (py_readlines r); eauto. }
  destruct H as (l & ls & ->). reflexivity.
Qed.

Lemma get_credentials_token_is_flag_witness :
  get_credentials (Some "abcdef0123456789") true = Ok (Token true).
Proof.
  apply (get_credentials_token_is_flag "abcdef0123456789"). discriminate.
Defined.

(** X16: a file with fewer than two lines has no password line: asked
    for user name and password, [get_credentials] raises IndexError on a
    file made of a single line, ended or not. *)
Theorem get_credentials_short_file u :
  one_line u = true ->
  get_credentials (Some u) false = Raise IndexError
  /\ get_credentials (Some (u +:+ String LF "")) false = Raise IndexError.
Proof.
  intros Hu. unfold get_credentials, read_line. split.
  - rewrite (readlines_one_line _ Hu). destruct u; reflexivity.
  - rewrite (readlines_lf _ _ Hu). reflexivity.
Qed.

Lemma get_credentials_short_file_witness :
  get_credentials (Some "alice") false = Raise IndexError
  /\ get_credentials (Some ("alice" +:+ String LF "")) false = Raise IndexError.
Proof.
  apply (get_credentials_short_file "alice"). reflexivity.
Defined.

(** ** What follows a second separator in the day range *)

(** X18: only the first two fields of the day range are read: whatever
    follows a second [/] is ignored, without an error. *)
Theorem day_list_ignores_third_field a b rest w :
  has_slash a = false ->
  has_slash b = false ->
  day_list (a +:+ String "/" (b +:+ String "/" rest)) w
  = day_list (a +:+ String "/" b) w.
Proof.
  intros Ha Hb. unfold day_list.
  rewrite !(py_split_first _ _ Ha), (py_split_first _ _ Hb), (py_split_no_slash _ Hb).
  reflexivity.
Qed.

Lemma day_list_ignores_third_field_witness :
  day_list ("010" +:+ String "/" ("012" +:+ String "/" "whatever")) (world_of [])
  = day_list ("010" +:+ String "/" "012") (world_of []).
Proof.
  apply (day_list_ignores_third_field "010" "012" "whatever" (world_of []));
    reflexivity.
Defined.

(** * Entries with an unreadable date *)

Lemma process_file_raises_exact env data_dir yr http_url subdir href last_mod
    size st w f :
  files w !! local_name_of data_dir yr href = Some f ->
  unreadable env last_mod ->
  decide_entry env (local_name_of data_dir yr href) last_mod w
  = (Raise (if String.eqb last_mod "" then MissingSchema else ParserError), w)
  /\ process_file env data_dir yr http_url subdir href last_mod size st w
     = (Raise (if String.eqb last_mod "" then MissingSchema else ParserError), w).
Proof.
  intros Hf Hs.
  assert (Hc : check_mdt env (local_name_of data_dir yr href) last_mod None w
               = (Raise (if String.eqb last_mod "" then MissingSchema
                         else ParserError), w)).
  { destruct (String.eqb_spec last_mod "") as [-> | Hne].
    - apply check_mdt_empty.
    - destruct Hs as [Hs | Hs]; [contradiction |].
      apply check_mdt_unreadable; assumption. }
  assert (Hd : decide_entry env (local_name_of data_dir yr href) last_mod w
               = (Raise (if String.eqb last_mod "" then MissingSchema
                         else ParserError), w)).
  { rewrite (decide_entry_present _ _ _ _ _ Hf). apply bind_Raise, Hc. }
  split; [exact Hd |].
  rewrite process_file_decide. apply bind_Raise, Hd.
Qed.

Section Reached.
Variable env : Env.
Variables (data_dir : string) (yr : Z) (http_url : string).

Local Abbreviation local r := (local_name_of data_dir yr (href r)).

(** What a loop that returned says of each row it processed: the file of
    the row is there at the end, and if the file was there in an earlier
    world [w0] whose files the loop found in place, the date of the row
    is readable. *)
Local Abbreviation settled w1 w' r :=
  (is_Some (files w' !! local r)
   /\ forall w0 f, kept w0 w1 -> files w0 !! local r = Some f ->
                   ~ unreadable env (last_mod r)).

Lemma process_each_settled subdir l : forall st w1 st' w',
  process_each env data_dir yr http_url subdir l st w1 = (Ok st', w') ->
  kept w1 w' /\ forall r, In r l -> settled w1 w' r.
Proof.
  induction l as [|x rest IH]; intros st w1 st' w' H.
  - injection H as _ <-. split; [apply kept_refl | intros r []].
  - cbn [process_each] in H.
    apply bind_inv_Ok in H. destruct H as (sz & w0 & Hsz & H).
    assert (w0 = w1) as ->.
    { revert Hsz. unfold from_option. destruct (py_int (size x));
        [intros [= _ <-]; reflexivity | discriminate]. }
    apply bind_inv_Ok in H. destruct H as (st1 & w2 & Hp & H).
    destruct (IH _ _ _ _ H) as [Hk2 Hrest].
    assert (Hk1 : kept w1 w2).
    { destruct (process_file_kept _ _ _ _ _ _ _ _ _ _ _ _ Hp) as [Hk | Hk];
        [exact Hk | discriminate Hk]. }
    split; [eapply kept_trans; eassumption |].
    intros r [<- | Hin].
    + split.
      * pose proof Hp as Hinv. apply process_file_Ok_inv in Hinv.
        destruct Hinv as [(f & Hf & _ & -> & _) | (n & _ & _ & -> & _)].
        -- exists f. apply Hk2, Hf.
        -- eexists. apply Hk2. unfold written. simpl. apply lookup_insert_eq.
      * intros w0 f Hk0 Hf Hbad.
        destruct (process_file_raises_exact env data_dir yr http_url subdir
                    (href x) (last_mod x) sz st w1 f (Hk0 _ _ Hf) Hbad) as [_ Hr].
        rewrite Hr in Hp. discriminate Hp.
    + destruct (Hrest r Hin) as [Hs Hu]. split; [exact Hs |].
      intros w0 f Hk0. apply Hu. eapply kept_trans; eassumption.
Qed.

Lemma files_loop_settled subdir rows st w1 st' w' :
  files_loop env data_dir yr http_url subdir rows [] st w1 = (Ok st', w') ->
  kept w1 w' /\ forall r, In r (first_occurrences rows) -> settled w1 w' r.
Proof.
  rewrite files_loop_filter.
  replace (List.filter (fun r : Row => negb (str_in (href r) []))
             (first_occurrences rows)) with (first_occurrences rows).
  - apply process_each_settled.
  - generalize (first_occurrences rows). intros l.
    induction l as [|x l IH]; simpl; [reflexivity |]. f_equal. exact IH.
Qed.

Lemma days_loop_settled days links : forall st w1 st' w',
  days_loop env data_dir yr http_url days links st w1 = (Ok st', w') ->
  kept w1 w'
  /\ forall subdir rows r,
       In subdir links -> skipped days subdir = false ->
       file_rows env (http_url +:+ "/" +:+ py_str yr +:+ "/" +:+ subdir) = Some rows ->
       In r (first_occurrences rows) ->
       settled w1 w' r.
Proof.
  induction links as [|subdir0 rest IH]; intros st w1 st' w' H.
  - injection H as _ <-. split; [apply kept_refl | intros subdir rows r []].
  - cbn [days_loop] in H. destruct (skipped days subdir0) eqn:Hsk.
    + destruct (IH _ _ _ _ H) as [Hk Hrest]. split; [exact Hk |].
      intros subdir rows r [<- | Hin] Hns; [congruence |].
      apply Hrest; assumption.
    + apply bind_inv_Ok in H. destruct H as (rows0 & w0 & Hg & H).
      assert (Hrows0 : file_rows env (http_url +:+ "/" +:+ py_str yr
                                      +:+ "/" +:+ subdir0) = Some rows0).
      { revert Hg. unfold session_get. munfold. simpl.
        destruct (file_rows env _); [intros [= -> _]; reflexivity | discriminate]. }
      apply session_get_files in Hg.
      apply bind_inv_Ok in H. destruct H as (st1 & w2 & Hl & H).
      destruct (files_loop_settled _ _ _ _ _ _ Hl) as [Hk02 Hhere].
      destruct (IH _ _ _ _ H) as [Hk2 Hrest].
      assert (Hk10 : kept w1 w0) by (apply kept_same_files, Hg).
      assert (Hk12 : kept w1 w2) by (eapply kept_trans; eassumption).
      split; [eapply kept_trans; eassumption |].
      intros subdir rows r [<- | Hin] Hns Hrows Hr.
      * rewrite Hrows0 in Hrows. injection Hrows as <-.
        destruct (Hhere r Hr) as [[f Hf] Hu]. split; [exists f; apply Hk2, Hf |].
        intros w00 f0 Hk00. apply Hu. eapply kept_trans; eassumption.
      * destruct (Hrest subdir rows r Hin Hns Hrows Hr) as [Hs Hu].
        split; [exact Hs |].
        intros w00 f0 Hk00. apply Hu. eapply kept_trans; eassumption.
Qed.

(** A run that returns its summary has left the file of every row it
    processed in place, and has met no row with an unreadable date whose
    file was there at the start. *)
Lemma download_yr_settled days w st w' subdir r :
  download_yr env http_url yr data_dir days w = (Ok st, w') ->
  processed env http_url yr days subdir r ->
  is_Some (files w' !! local r)
  /\ forall f, files w !! local r = Some f -> ~ unreadable env (last_mod r).
Proof.
  intros H (links & rows & Hlinks & Hin & Hns & Hrows & Hr).
  unfold download_yr in H.
  apply bind_inv_Ok in H. destruct H as (links0 & w0 & Hg & H).
  assert (links0 = links) as ->.
  { revert Hg. unfold session_get. munfold. simpl. rewrite Hlinks.
    intros [= -> _]. reflexivity. }
  apply session_get_files in Hg.
  destruct (days_loop_settled _ _ _ _ _ _ H) as [_ Hall].
  destruct (Hall subdir rows r Hin Hns Hrows Hr) as [Hs Hu].
  split; [exact Hs |].
  intros f Hf. apply (Hu w f); [apply kept_same_files, Hg | exact Hf].
Qed.

Lemma download_yr_stops_on_unreadable days w subdir r f :
  processed env http_url yr days subdir r ->
  files w !! local r = Some f ->
  unreadable env (last_mod r) ->
  exists e w', download_yr env http_url yr data_dir days w = (Raise e, w').
Proof.
  intros Hp Hf Hbad.
  destruct (download_yr env http_url yr data_dir days w) as [[st|e] w'] eqn:H.
  - destruct (download_yr_settled _ _ _ _ _ _ H Hp) as [_ Hu].
    exfalso. exact (Hu f Hf Hbad).
  - eauto.
Qed.

End Reached.

(** C3, amended: for every entry whose local file exists and whose remote
    date is empty or is rejected by the parser with ParserError,
    [process_file] raises, MissingSchema for the empty string (the HEAD
    request has no URL) and ParserError otherwise, with the world as
    before: no request was sent and the local file is untouched.  The
    entry is not passed over as up to date, its path is appended to no
    list, and nothing catches the exception: a run of [download_yr] that
    reaches the entry (its folder is not passed over and its row is the
    first of its name on the page), and [main] around it, return no
    summary but raise. *)
Theorem unreadable_date_raises env data_dir yr href last_mod w f :
  files w !! local_name_of data_dir yr href = Some f ->
  unreadable env last_mod ->
  (forall http_url subdir size st,
     process_file env data_dir yr http_url subdir href last_mod size st w
     = (Raise (if String.eqb last_mod "" then MissingSchema else ParserError), w))
  /\ decide_entry env (local_name_of data_dir yr href) last_mod w
     = (Raise (if String.eqb last_mod "" then MissingSchema else ParserError), w)
  /\ (forall http_url days subdir size_text,
        processed env http_url yr days subdir (Build_Row href last_mod size_text) ->
        exists e w', download_yr env http_url yr data_dir days w = (Raise e, w'))
  /\ (forall args subdir size_text,
        year args = yr ->
        main_data_dir env = data_dir ->
        (forall days, day_list (day_range args) w = (Ok days, w) ->
                      processed env main_http_url yr days subdir
                        (Build_Row href last_mod size_text)) ->
        exists e w', main env args w = (Raise e, w')).
Proof.
  intros Hf Hbad. split; [| split; [| split]].
  - intros http_url subdir size st.
    apply (process_file_raises_exact env data_dir yr http_url subdir href
             last_mod size st w f Hf Hbad).
  - apply (process_file_raises_exact env data_dir yr "" "" href
             last_mod 0 empty_status w f Hf Hbad).
  - intros http_url days subdir size_text Hp.
    apply (download_yr_stops_on_unreadable env data_dir yr http_url days w subdir
             (Build_Row href last_mod size_text) f Hp Hf Hbad).
  - intros args subdir size_text Hy Hdir Hp. unfold main.
    destruct (day_list (day_range args) w) as [[days|e] w0] eqn:Hd;
      pose proof (day_list_world _ _ _ _ Hd) as ->.
    + rewrite (bind_Ok _ _ _ _ _ Hd).
      unfold open_session. rewrite bind_unfold. unfold emit.
      specialize (Hp days eq_refl).
      destruct (download_yr_stops_on_unreadable env data_dir yr main_http_url days
                  {| files := files w; ticks := ticks w;
                     trace := trace w ++ [EPost "http://urs.earthdata.nasa.gov"] |}
                  subdir (Build_Row href last_mod size_text) f Hp Hf Hbad)
        as (e & w' & Hr).
      exists e, w'. rewrite Hy. fold (main_data_dir env). rewrite Hdir.
      fold main_http_url. rewrite bind_unfold, Hr. reflexivity.
    + exists e, w. apply bind_Raise, Hd.
Qed.

Lemma unreadable_date_raises_witness :
  process_file env0 data_dir0 2020 http_url0 "001/contents.html" href0
    "yesterday-ish" 1000 empty_status
    (world_of [(local_name_of data_dir0 2020 href0,
                {| mtime := jan1_2020; st_size := 1200 |})])
  = (Raise (if String.eqb "yesterday-ish" "" then MissingSchema else ParserError),
     world_of [(local_name_of data_dir0 2020 href0,
                {| mtime := jan1_2020; st_size := 1200 |})]).
Proof.
  apply (unreadable_date_raises env0 data_dir0 2020 href0 "yesterday-ish"
           (world_of [(local_name_of data_dir0 2020 href0,
                       {| mtime := jan1_2020; st_size := 1200 |})])
           {| mtime := jan1_2020; st_size := 1200 |}).
  - vm_compute. reflexivity.
  - right. vm_compute. reflexivity.
Defined.

(** * Running the year a second time *)



